(** * PyDash backend: the ingestion-to-alert pipeline

    A shallow embedding of [backend/alert_system.py],
    [backend/data_processor.py], [backend/mqtt_client.py], the tables of
    [backend/database.py], the thresholds of [backend/config.py] and the two
    endpoints of [backend/main.py] that write and read sensor readings;
    further, the alert endpoint and the start-up of [backend/main.py] and
    the two grouping functions of [frontend/utils.py].

    - Python floats are the kernel's binary64 floats, compared with
      [PrimFloat.ltb] (so a NaN is neither below nor above a bound).
    - A naive [datetime] is an integer count of microseconds.
    - A SQLAlchemy session is a state monad over the committed tables, the
      objects pending in the open session and the text printed so far; a
      raised exception is the left summand of the result.
    - What the environment decides during one call (what [datetime.utcnow()]
      returns, whether a statement sent to the database raises) is read from
      an [env] record, indexed by the place in the source that asks. *)

From Stdlib Require Import ZArith List String Ascii Bool Floats Lia.
From Stdlib Require Import Sorting.Permutation Sorting.Sorted.
Import ListNotations.

Local Open Scope string_scope.
Local Open Scope list_scope.
Local Open Scope Z_scope.

(** ** Python values *)

(** A raised exception, kept as the text [str(e)] that the handlers print. *)
Definition exn := string.

(** A naive [datetime]: microseconds since an arbitrary epoch. *)
Definition datetime := Z.

(** [timedelta(hours=1)] *)
Definition one_hour : Z := 3600 * 1000000.

#[local] Set Warnings "-register-all".

(** What [json.loads] can return, which is also what the values of the
    [sensor_data] dict can be.  A dict is an association list whose first
    binding of a key is the one [get] sees. *)
Inductive pyval : Type :=
| PNone
| PBool (b : bool)
| PInt (z : Z)
| PFloat (f : float)
| PStr (s : string)
| PList (l : list pyval)
| PDict (kv : list (string * pyval)).

Fixpoint assoc (k : string) (kv : list (string * pyval)) : option pyval :=
  match kv with
  | [] => None
  | (k', v) :: kv' => if String.eqb k' k then Some v else assoc k kv'
  end.

(** [payload.get(key, default)]: only a dict has the method. *)
Definition py_get (payload : pyval) (key : string) (default : pyval) : exn + pyval :=
  match payload with
  | PDict kv => inr (match assoc key kv with Some v => v | None => default end)
  | _ => inl "object has no attribute 'get'"
  end.

(** [float(n)] for a Python int: correctly rounded, or OverflowError. *)
Definition float_of_int (z : Z) : exn + float :=
  let f := SF2Prim (binary_normalize prec emax z 0 false) in
  if PrimFloat.is_infinity f then inl "int too large to convert to float" else inr f.

(** ** Strings *)

(** [s.split(sep)] for a one-character separator: never the empty list. *)
Fixpoint split (sep : ascii) (s : string) : list string :=
  match s with
  | EmptyString => [EmptyString]
  | String c s' =>
      if Ascii.eqb c sep then EmptyString :: split sep s'
      else match split sep s' with
           | [] => [String c EmptyString]
           | w :: ws => String c w :: ws
           end
  end.

Definition is_upper (c : ascii) : bool :=
  let n := nat_of_ascii c in (65 <=? n)%nat && (n <=? 90)%nat.

Definition is_lower (c : ascii) : bool :=
  let n := nat_of_ascii c in (97 <=? n)%nat && (n <=? 122)%nat.

Definition upper (c : ascii) : ascii :=
  if is_lower c then ascii_of_nat (nat_of_ascii c - 32) else c.

Definition lower (c : ascii) : ascii :=
  if is_upper c then ascii_of_nat (nat_of_ascii c + 32) else c.

Fixpoint map_string (f : ascii -> ascii) (s : string) : string :=
  match s with
  | EmptyString => EmptyString
  | String c s' => String (f c) (map_string f s')
  end.

(** [s.capitalize()], on ASCII letters: first character upper, rest lower. *)
Definition capitalize (s : string) : string :=
  match s with
  | EmptyString => EmptyString
  | String c s' => String (upper c) (map_string lower s')
  end.

(** [s.title()], on ASCII letters: a letter that follows a letter is
    lowered, any other letter is raised. *)
Fixpoint title_from (prev_cased : bool) (s : string) : string :=
  match s with
  | EmptyString => EmptyString
  | String c s' =>
      let cased := is_upper c || is_lower c in
      String (if prev_cased then lower c else upper c) (title_from cased s')
  end.

Definition title (s : string) : string := title_from false s.

(** [s.replace(a, b)] for single characters. *)
Definition replace (a b : ascii) (s : string) : string :=
  map_string (fun c => if Ascii.eqb c a then b else c) s.

(** ** Tables ([backend/database.py])

    The integer primary key [id] of a row is its position in the table plus
    one: rows are only ever appended. *)

Module Sensor.
Record t : Type := Build
  { sensor_id : string;    (* unique *)
    name : string;
    location : string;
    sensor_type : string }.
End Sensor.

Module SensorReading.
Record t : Type := Build
  { sensor_id : string;
    timestamp : datetime;
    value : float;
    unit : pyval }.
End SensorReading.

Module Alert.
Record t : Type := Build
  { sensor_id : string;
    timestamp : datetime;
    value : float;
    threshold : float;
    message : string;
    was_notified : Z }.    (* 0: not sent, 1: sent *)

Definition set_was_notified (v : Z) (a : t) : t :=
  Build (sensor_id a) (timestamp a) (value a) (threshold a) (message a) v.
End Alert.

Record database : Type := Database
  { sensors : list Sensor.t;
    sensor_readings : list SensorReading.t;
    alerts : list Alert.t }.

Definition empty_database : database := Database [] [] [].

(** ** Settings ([backend/config.py]) *)

Record Settings : Type :=
  { TEMPERATURE_MIN : float;
    TEMPERATURE_MAX : float;
    HUMIDITY_MIN : float;
    HUMIDITY_MAX : float }.

(** The values used when the environment sets none. *)
Definition default_settings : Settings :=
  {| TEMPERATURE_MIN := 10; TEMPERATURE_MAX := 30;
     HUMIDITY_MIN := 20; HUMIDITY_MAX := 80 |}%float.

(** ** The [sensor_data] dict handed to [process_sensor_data]

    Both transports build it with the same seven keys; [timestamp] is the
    one key [process_sensor_data] reads with a default. *)

Module SD.
Record t : Type := Build
  { sensor_id : string;
    name : string;
    location : string;
    sensor_type : string;
    value : float;
    unit : pyval;
    timestamp : option datetime }.
End SD.

(** ** The environment of one call *)

(** The places that send a statement to the database. *)
Inductive db_site : Type :=
| EndpointQuerySensor   (* main.py:79 *)
| QuerySensor           (* data_processor.py:12 *)
| CommitSensor          (* data_processor.py:21 *)
| RefreshSensor         (* data_processor.py:22 *)
| CommitReading         (* data_processor.py:32 *)
| QueryRecentAlert      (* alert_system.py:34 *)
| CommitAlert           (* alert_system.py:49 *)
| CommitNotified.       (* alert_system.py:56 *)

(** The places that call [datetime.utcnow()]. *)
Inductive clock_site : Type :=
| TransportNow          (* main.py:89, mqtt_client.py:35 *)
| ReadingDefaultNow     (* data_processor.py:27 *)
| CooldownNow           (* alert_system.py:33 *)
| AlertNow.             (* alert_system.py:42 *)

Record env : Type := Env
  { utcnow : clock_site -> datetime;
    fault : db_site -> option exn }.

Definition no_fault (e : env) : Prop := forall site, fault e site = None.

(** ** Sessions *)

(** What an open session holds until the next [commit]. *)
Inductive pending_op : Type :=
| AddSensor (s : Sensor.t)
| AddReading (r : SensorReading.t)
| AddAlert (a : Alert.t)
| SetWasNotified (row : nat) (v : Z).

Record state : Type := State
  { store : database;           (* the committed tables *)
    session : list pending_op;  (* added or modified, not yet flushed *)
    stdout : list string }.     (* the lines printed so far *)

Definition M (A : Type) : Type := state -> state * (exn + A).

Definition ret {A} (a : A) : M A := fun s => (s, inr a).

Definition bind {A B} (m : M A) (k : A -> M B) : M B :=
  fun s => match m s with
           | (s', inl e) => (s', inl e)
           | (s', inr a) => k a s'
           end.

Declare Scope py_scope.
Delimit Scope py_scope with py.
Notation "x <- m ;; k" := (bind m (fun x => k))
  (at level 61, m at next level, right associativity) : py_scope.
Notation "m ;; k" := (bind m (fun _ => k))
  (at level 61, right associativity) : py_scope.
Local Open Scope py_scope.

(** [try: body  except Exception as e: handler(e)] *)
Definition try_except {A} (body : M A) (handler : exn -> M A) : M A :=
  fun s => match body s with
           | (s', inl e) => handler e s'
           | r => r
           end.

(** [try: body  finally: final]; an exception of [final] replaces the
    outcome of [body]. *)
Definition try_finally {A} (body : M A) (final : M unit) : M A :=
  fun s => match body s with
           | (s', r) => match final s' with
                        | (s'', inl e) => (s'', inl e)
                        | (s'', inr _) => (s'', r)
                        end
           end.

Definition lift {A} (r : exn + A) : M A := fun s => (s, r).

Definition print (line : string) : M unit :=
  fun s => (State (store s) (session s) (stdout s ++ [line]), inr tt).

(** ** The session's operations *)

(** [UPDATE ... WHERE id = row + 1]: the row at position [row] is rewritten,
    a position past the end selects nothing. *)
Definition update_row {A} (row : nat) (f : A -> A) (l : list A) : list A :=
  firstn row l
  ++ match nth_error l row with
     | Some a => [f a]
     | None => []
     end
  ++ skipn (S row) l.

Arguments update_row : simpl never.

(** One pending operation applied to the tables.  [sensors.sensor_id] is
    declared unique: a second row with the same identifier is refused. *)
Definition apply_op (d : database) (op : pending_op) : exn + database :=
  match op with
  | AddSensor s =>
      if existsb (fun s' => String.eqb (Sensor.sensor_id s') (Sensor.sensor_id s)) (sensors d)
      then inl "UNIQUE constraint failed: sensors.sensor_id"
      else inr (Database (sensors d ++ [s]) (sensor_readings d) (alerts d))
  | AddReading r =>
      inr (Database (sensors d) (sensor_readings d ++ [r]) (alerts d))
  | AddAlert a =>
      inr (Database (sensors d) (sensor_readings d) (alerts d ++ [a]))
  | SetWasNotified row v =>
      inr (Database (sensors d) (sensor_readings d)
             (update_row row (Alert.set_was_notified v) (alerts d)))
  end.

Fixpoint flush (d : database) (ops : list pending_op) : exn + database :=
  match ops with
  | [] => inr d
  | op :: ops' =>
      match apply_op d op with
      | inl e => inl e
      | inr d' => flush d' ops'
      end
  end.

(** [db = SessionLocal()] *)
Definition open_session : M unit :=
  fun s => (State (store s) [] (stdout s), inr tt).

(** [db.add(obj)] *)
Definition db_add (op : pending_op) : M unit :=
  fun s => (State (store s) (session s ++ [op]) (stdout s), inr tt).

(** [db.commit()]: the pending operations reach the tables together or not
    at all. *)
Definition db_commit (e : env) (site : db_site) : M unit :=
  fun s =>
    match fault e site with
    | Some ex => (s, inl ex)
    | None =>
        match flush (store s) (session s) with
        | inl ex => (s, inl ex)
        | inr d => (State d [] (stdout s), inr tt)
        end
    end.

(** [db.refresh(obj)] *)
Definition db_refresh (e : env) (site : db_site) : M unit :=
  fun s => match fault e site with
           | Some ex => (s, inl ex)
           | None => (s, inr tt)
           end.

(** [db.rollback()] *)
Definition db_rollback : M unit :=
  fun s => (State (store s) [] (stdout s), inr tt).

(** [db.close()] *)
Definition db_close : M unit :=
  fun s => (State (store s) [] (stdout s), inr tt).

(** [db.query(Sensor).filter(Sensor.sensor_id == sensor_id).first()];
    the session does not autoflush, so a query sees the committed rows. *)
Definition query_sensor (e : env) (site : db_site) (sensor_id : string)
  : M (option Sensor.t) :=
  fun s =>
    match fault e site with
    | Some ex => (s, inl ex)
    | None =>
        (s, inr (find (fun x => String.eqb (Sensor.sensor_id x) sensor_id)
                      (sensors (store s))))
    end.

(** The filter of [create_alert]: same sensor, stamped after [since]. *)
Definition is_recent (sensor_id : string) (since : datetime) (a : Alert.t) : bool :=
  String.eqb (Alert.sensor_id a) sensor_id && (since <? Alert.timestamp a).

(** [db.query(Alert).filter(Alert.sensor_id == sensor_id,
                            Alert.timestamp > since).first()] *)
Definition query_recent_alert (e : env) (site : db_site)
    (sensor_id : string) (since : datetime) : M (option Alert.t) :=
  fun s =>
    match fault e site with
    | Some ex => (s, inl ex)
    | None => (s, inr (find (is_recent sensor_id since) (alerts (store s))))
    end.

(** The row a newly added alert takes when the session is flushed. *)
Definition next_alert_row : M nat :=
  fun s => (s, inr (List.length (alerts (store s)))).

(** ** What the two transports receive *)

(** The validated request body, [class SensorData(BaseModel)]. *)
Module SensorData.
Record t : Type := Build
  { sensor_id : string;
    value : float;
    unit : option string }.   (* Optional[str] = "" *)
End SensorData.

(** A delivered message: its topic, and what
    [json.loads(msg.payload.decode())] makes of its payload. *)
Module MQTTMessage.
Record t : Type := Build
  { topic : string;
    payload : exn + pyval }.
End MQTTMessage.

Section Python.

(** How an f-string prints a float, and what [float(s)] makes of a string
    ([None] for ValueError): both belong to the Python runtime. *)
Variable str_of_float : float -> string.
Variable float_of_str : string -> option float.

(** ** [backend/alert_system.py] *)

(** [create_alert(db, sensor_data, threshold, message)] *)
Definition create_alert (e : env) (sensor_data : SD.t)
    (threshold : float) (message : string) : M unit :=
  let one_hour_ago := utcnow e CooldownNow - one_hour in
  recent_alert <- query_recent_alert e QueryRecentAlert
                    (SD.sensor_id sensor_data) one_hour_ago ;;
  match recent_alert with
  | Some _ => ret tt
  | None =>
      let alert :=
        Alert.Build (SD.sensor_id sensor_data) (utcnow e AlertNow)
          (SD.value sensor_data) threshold message 0 in
      row <- next_alert_row ;;          (* the identity of [alert] *)
      db_add (AddAlert alert) ;;
      db_commit e CommitAlert ;;
      (* send_notifications(alert) is commented out in the source *)
      db_add (SetWasNotified row 1) ;;
      db_commit e CommitNotified
  end.

Definition low_temperature_message (value threshold : float) : string :=
  ("Low temperature alert: " ++ str_of_float value
  ++ "°C is below threshold of " ++ str_of_float threshold ++ "°C")%string.

Definition high_temperature_message (value threshold : float) : string :=
  ("High temperature alert: " ++ str_of_float value
  ++ "°C is above threshold of " ++ str_of_float threshold ++ "°C")%string.

Definition low_humidity_message (value threshold : float) : string :=
  ("Low humidity alert: " ++ str_of_float value
  ++ "% is below threshold of " ++ str_of_float threshold ++ "%")%string.

Definition high_humidity_message (value threshold : float) : string :=
  ("High humidity alert: " ++ str_of_float value
  ++ "% is above threshold of " ++ str_of_float threshold ++ "%")%string.

(** [check_alert_conditions(db, sensor_data)] *)
Definition check_alert_conditions (e : env) (settings : Settings)
    (sensor_data : SD.t) : M unit :=
  let sensor_type := SD.sensor_type sensor_data in
  let value := SD.value sensor_data in
  if String.eqb sensor_type "temperature" then
    if PrimFloat.ltb value (TEMPERATURE_MIN settings) then
      create_alert e sensor_data (TEMPERATURE_MIN settings)
        (low_temperature_message value (TEMPERATURE_MIN settings))
    else if PrimFloat.ltb (TEMPERATURE_MAX settings) value then
      create_alert e sensor_data (TEMPERATURE_MAX settings)
        (high_temperature_message value (TEMPERATURE_MAX settings))
    else ret tt
  else if String.eqb sensor_type "humidity" then
    if PrimFloat.ltb value (HUMIDITY_MIN settings) then
      create_alert e sensor_data (HUMIDITY_MIN settings)
        (low_humidity_message value (HUMIDITY_MIN settings))
    else if PrimFloat.ltb (HUMIDITY_MAX settings) value then
      create_alert e sensor_data (HUMIDITY_MAX settings)
        (high_humidity_message value (HUMIDITY_MAX settings))
    else ret tt
  else ret tt.

(** The arguments of the [create_alert] call that [check_alert_conditions]
    makes, if it makes one: the crossed threshold and the message. *)
Definition alert_candidate (settings : Settings) (sensor_data : SD.t)
  : option (float * string) :=
  let sensor_type := SD.sensor_type sensor_data in
  let value := SD.value sensor_data in
  if String.eqb sensor_type "temperature" then
    if PrimFloat.ltb value (TEMPERATURE_MIN settings) then
      Some (TEMPERATURE_MIN settings,
            low_temperature_message value (TEMPERATURE_MIN settings))
    else if PrimFloat.ltb (TEMPERATURE_MAX settings) value then
      Some (TEMPERATURE_MAX settings,
            high_temperature_message value (TEMPERATURE_MAX settings))
    else None
  else if String.eqb sensor_type "humidity" then
    if PrimFloat.ltb value (HUMIDITY_MIN settings) then
      Some (HUMIDITY_MIN settings,
            low_humidity_message value (HUMIDITY_MIN settings))
    else if PrimFloat.ltb (HUMIDITY_MAX settings) value then
      Some (HUMIDITY_MAX settings,
            high_humidity_message value (HUMIDITY_MAX settings))
    else None
  else None.

(** The threshold pair in force for a sensor type: the two types the
    branches of [check_alert_conditions] name. *)
Definition thresholds (settings : Settings) (sensor_type : string)
  : option (float * float) :=
  if String.eqb sensor_type "temperature"
  then Some (TEMPERATURE_MIN settings, TEMPERATURE_MAX settings)
  else if String.eqb sensor_type "humidity"
  then Some (HUMIDITY_MIN settings, HUMIDITY_MAX settings)
  else None.

(** ** [backend/data_processor.py] *)

(** [process_sensor_data(sensor_data)] *)
Definition process_sensor_data (e : env) (settings : Settings)
    (sensor_data : SD.t) : M unit :=
  open_session ;;
  try_finally
    (try_except
       (sensor <- query_sensor e QuerySensor (SD.sensor_id sensor_data) ;;
        match sensor with
        | Some _ => ret tt
        | None =>
            db_add (AddSensor
                      (Sensor.Build (SD.sensor_id sensor_data)
                         (SD.name sensor_data) (SD.location sensor_data)
                         (SD.sensor_type sensor_data))) ;;
            db_commit e CommitSensor ;;
            db_refresh e RefreshSensor
        end ;;
        let reading :=
          SensorReading.Build (SD.sensor_id sensor_data)
            (match SD.timestamp sensor_data with
             | Some t => t
             | None => utcnow e ReadingDefaultNow
             end)
            (SD.value sensor_data) (SD.unit sensor_data) in
        db_add (AddReading reading) ;;
        db_commit e CommitReading ;;
        try_except
          (check_alert_conditions e settings sensor_data)
          (fun ex => print ("Error checking alert conditions: " ++ ex)%string))
       (fun ex =>
          db_rollback ;;
          print ("Error storing sensor data: " ++ ex)%string))
    db_close.

(** ** [backend/main.py]: the write endpoint *)

(** [float(x)] *)
Definition py_float (v : pyval) : exn + float :=
  match v with
  | PFloat f => inr f
  | PInt z => float_of_int z
  | PBool b => inr (if b then 1%float else 0%float)
  | PStr s =>
      match float_of_str s with
      | Some f => inr f
      | None => inl ("could not convert string to float: " ++ s)%string
      end
  | PNone | PList _ | PDict _ =>
      inl "float() argument must be a string or a real number"
  end.

Definition pyval_of_optional_str (o : option string) : pyval :=
  match o with
  | Some u => PStr u
  | None => PNone
  end.

(** [add_sensor_data(data, background_tasks, db)], up to the task it
    schedules: the result is the argument of that task. *)
Definition add_sensor_data (e : env) (data : SensorData.t) : M SD.t :=
  sensor <- query_sensor e EndpointQuerySensor (SensorData.sensor_id data) ;;
  ret (SD.Build
         (SensorData.sensor_id data)
         (match sensor with
          | Some x => Sensor.name x
          | None => SensorData.sensor_id data
          end)
         (match sensor with
          | Some x => Sensor.location x
          | None => "unknown"
          end)
         (match sensor with
          | Some x => Sensor.sensor_type x
          | None => hd EmptyString (split "_" (SensorData.sensor_id data))
          end)
         (SensorData.value data)
         (pyval_of_optional_str (SensorData.unit data))
         (Some (utcnow e TransportNow))).

(** One request served: the endpoint, then the background task. *)
Definition post_sensor_data (e : env) (settings : Settings)
    (data : SensorData.t) : M unit :=
  sensor_data <- add_sensor_data e data ;;
  process_sensor_data e settings sensor_data.

(** ** [backend/mqtt_client.py] *)

(** The dict built at mqtt_client.py:28-36. *)
Definition mqtt_sensor_data (e : env) (sensor_type location : string)
    (value : float) (unit : pyval) : SD.t :=
  SD.Build
    (sensor_type ++ "_" ++ location)%string
    (capitalize sensor_type ++ " Sensor")%string
    (title (replace "_" " " location))
    sensor_type
    value
    unit
    (Some (utcnow e TransportNow)).

(** [on_message(client, userdata, msg)] *)
Definition on_message (e : env) (settings : Settings)
    (msg : MQTTMessage.t) : M unit :=
  try_except
    (payload <- lift (MQTTMessage.payload msg) ;;
     let topic_parts := split "/" (MQTTMessage.topic msg) in
     if (3 <=? List.length topic_parts)%nat then
       let sensor_type := nth 1 topic_parts EmptyString in
       let location := nth 2 topic_parts EmptyString in
       v <- lift (py_get payload "value" (PInt 0)) ;;
       value <- lift (py_float v) ;;
       unit <- lift (py_get payload "unit" (PStr "")) ;;
       process_sensor_data e settings
         (mqtt_sensor_data e sensor_type location value unit)
     else ret tt)
    (fun ex => print ("Error processing MQTT message: " ++ ex)%string).

(** ** Readings handled one after the other *)

Definition run {A} (m : M A) (s : state) : state := fst (m s).

Definition outcome {A} (m : M A) (s : state) : exn + A := snd (m s).

Fixpoint ingest_all (settings : Settings) (calls : list (env * SD.t))
    (s : state) : state :=
  match calls with
  | [] => s
  | (e, sensor_data) :: calls' =>
      ingest_all settings calls' (run (process_sensor_data e settings sensor_data) s)
  end.

Fixpoint deliver_all (settings : Settings) (msgs : list (env * MQTTMessage.t))
    (s : state) : state :=
  match msgs with
  | [] => s
  | (e, msg) :: msgs' =>
      deliver_all settings msgs' (run (on_message e settings msg) s)
  end.

End Python.

(** ** [backend/main.py]: the read endpoint *)

(** [ORDER BY timestamp DESC] and [LIMIT n] are the database's work.  The
    first returns the rows it is given, latest first, the order among equal
    timestamps being its own choice; the second keeps the first [n] rows
    for a count [n], and what it does with a negative [n] depends on the
    database (SQLite keeps every row).  The endpoint takes both as
    [order_by_timestamp_desc] and [sql_limit]. *)

Definition later_or_equal (a b : SensorReading.t) : Prop :=
  SensorReading.timestamp b <= SensorReading.timestamp a.

(** The rows selected by the filters of [get_sensor_readings]. *)
Definition selected (sensor_id : string) (start_time end_time : option datetime)
    (r : SensorReading.t) : bool :=
  String.eqb (SensorReading.sensor_id r) sensor_id
  && match start_time with
     | Some t => t <=? SensorReading.timestamp r
     | None => true
     end
  && match end_time with
     | Some t => SensorReading.timestamp r <=? t
     | None => true
     end.

(** [get_sensor_readings(sensor_id, limit, start_time, end_time, db)] *)
Definition get_sensor_readings
    (order_by_timestamp_desc : list SensorReading.t -> list SensorReading.t)
    (sql_limit : Z -> list SensorReading.t -> list SensorReading.t)
    (d : database) (sensor_id : string)
    (limit : Z) (start_time end_time : option datetime)
  : list SensorReading.t :=
  let query :=
    filter (fun r => String.eqb (SensorReading.sensor_id r) sensor_id)
      (sensor_readings d) in
  let query :=
    match start_time with
    | Some t => filter (fun r => t <=? SensorReading.timestamp r) query
    | None => query
    end in
  let query :=
    match end_time with
    | Some t => filter (fun r => SensorReading.timestamp r <=? t) query
    | None => query
    end in
  sql_limit limit (order_by_timestamp_desc query).

(** SQLite's [LIMIT]. *)
Definition sqlite_limit (n : Z) (rows : list SensorReading.t)
  : list SensorReading.t :=
  if n <? 0 then rows else firstn (Z.to_nat n) rows.

(** A database's ordering, for the examples: insertion sort, latest first. *)
Fixpoint insert_desc (r : SensorReading.t) (l : list SensorReading.t)
  : list SensorReading.t :=
  match l with
  | [] => [r]
  | x :: l' =>
      if SensorReading.timestamp x <=? SensorReading.timestamp r
      then r :: l
      else x :: insert_desc r l'
  end.

Definition sort_desc (l : list SensorReading.t) : list SensorReading.t :=
  fold_right insert_desc [] l.

(** ** [backend/main.py]: the alert endpoint *)

(** [timedelta(hours=hours)] in microseconds; OverflowError when the number
    of days falls outside [-999999999, 999999999].  No handler reads the
    message of the exceptions of this endpoint: [inl] holds their class. *)
Definition timedelta_hours (hours : Z) : exn + Z :=
  let days := hours / 24 in
  if (-999999999 <=? days) && (days <=? 999999999)
  then inr (hours * 3600 * 1000000)
  else inl "OverflowError".

(** [datetime.max], counted in microseconds from [datetime.min]. *)
Definition datetime_max : Z := 3652059 * 86400 * 1000000 - 1.

(** [t - delta] for a datetime counted from [datetime.min]; OverflowError
    when the result is no date of the years 1 to 9999. *)
Definition datetime_sub (t : datetime) (delta : Z) : exn + datetime :=
  let r := t - delta in
  if (0 <=? r) && (r <=? datetime_max) then inr r
  else inl "OverflowError".

(** [get_alerts(limit, hours, db)], the clock reading [now]; as for the
    readings, [ORDER BY] and [LIMIT] are the database's. *)
Definition get_alerts
    (order_by_timestamp_desc : list Alert.t -> list Alert.t)
    (sql_limit : Z -> list Alert.t -> list Alert.t)
    (now : datetime) (d : database) (limit hours : Z)
  : exn + list Alert.t :=
  match timedelta_hours hours with
  | inl ex => inl ex
  | inr delta =>
      match datetime_sub now delta with
      | inl ex => inl ex
      | inr time_threshold =>
          inr (sql_limit limit
                 (order_by_timestamp_desc
                    (filter (fun a => time_threshold <=? Alert.timestamp a)
                       (alerts d))))
      end
  end.

(** One alert is stamped no earlier than another. *)
Definition alert_later_or_equal (a b : Alert.t) : Prop :=
  Alert.timestamp b <= Alert.timestamp a.

(** SQLite's [LIMIT] and an insertion sort, on alerts. *)
Definition sqlite_limit_alerts (n : Z) (rows : list Alert.t) : list Alert.t :=
  if n <? 0 then rows else firstn (Z.to_nat n) rows.

Fixpoint insert_alert_desc (a : Alert.t) (l : list Alert.t) : list Alert.t :=
  match l with
  | [] => [a]
  | x :: l' =>
      if Alert.timestamp x <=? Alert.timestamp a
      then a :: l
      else x :: insert_alert_desc a l'
  end.

Definition sort_alerts_desc (l : list Alert.t) : list Alert.t :=
  fold_right insert_alert_desc [] l.

(** ** [backend/main.py], [backend/mqtt_client.py]: start-up *)

(** [raise], inside a handler: the caught exception goes on. *)
Definition raise {A} (ex : exn) : M A := fun s => (s, inl ex).

(** The calls of [start_mqtt_client] that can raise. *)
Inductive mqtt_step : Type :=
| NewClient    (* mqtt_client.py:50 *)
| Connect      (* mqtt_client.py:55 *)
| LoopStart.   (* mqtt_client.py:58 *)

(** What the environment decides during start-up: whether [init_db()]
    raises, and whether a call on the MQTT client does. *)
Record startup_env : Type := StartupEnv
  { init_db_raises : option exn;
    mqtt_raises : mqtt_step -> option exn }.

Definition external_call (raises : option exn) : M unit :=
  fun s => match raises with
           | Some ex => (s, inl ex)
           | None => (s, inr tt)
           end.

(** [init_db()]: creates the tables that are missing, touches no row. *)
Definition init_db (b : startup_env) : M unit :=
  external_call (init_db_raises b).

(** [start_mqtt_client()]; the client object it returns is [tt]. *)
Definition start_mqtt_client (b : startup_env) : M unit :=
  try_except
    (external_call (mqtt_raises b NewClient) ;;
     external_call (mqtt_raises b Connect) ;;
     external_call (mqtt_raises b LoopStart) ;;
     ret tt)
    (fun ex =>
       print ("Failed to connect to MQTT broker: " ++ ex)%string ;;
       raise ex).

(** [startup_event()]; the result tells whether the global [mqtt_client]
    got bound. *)
Definition startup_event (b : startup_env) : M bool :=
  init_db b ;;
  try_except
    (start_mqtt_client b ;; ret true)
    (fun ex =>
       print ("Warning: Could not start MQTT client: " ++ ex)%string ;;
       print "The application will continue without MQTT support." ;;
       ret false).

(** ** [frontend/utils.py]: grouping the sensors *)

(** A sensor as [GET /api/sensors] serves it, restricted to its
    string-valued keys (the endpoint declares [sensor_id], [name],
    [location] and [sensor_type] as strings). *)
Definition sensor_json : Type := list (string * string).

(** [sensor.get(key, '')] *)
Fixpoint get_str (key : string) (sensor : sensor_json) : string :=
  match sensor with
  | [] => EmptyString
  | (k, v) :: sensor' => if String.eqb k key then v else get_str key sensor'
  end.

(** Truth of a string: it is not empty. *)
Definition truthy (s : string) : bool :=
  match s with
  | EmptyString => false
  | String _ _ => true
  end.

(** A dict of lists, its keys in insertion order. *)
Definition groups : Type := list (string * list string).

(** [if key not in groups: groups[key] = []], then
    [groups[key].append(sensor_id)]. *)
Fixpoint append_to (key sensor_id : string) (g : groups) : groups :=
  match g with
  | [] => [(key, [sensor_id])]
  | (k, ids) :: g' =>
      if String.eqb k key then (k, ids ++ [sensor_id]) :: g'
      else (k, ids) :: append_to key sensor_id g'
  end.

(** [group_sensors_by_type(sensors)] *)
Definition group_sensors_by_type (sensors : list sensor_json) : groups :=
  match sensors with
  | [] => []
  | _ =>
      fold_left
        (fun sensor_groups sensor =>
           let sensor_type := get_str "sensor_type" sensor in
           let sensor_id := get_str "sensor_id" sensor in
           if truthy sensor_type && truthy sensor_id
           then append_to sensor_type sensor_id sensor_groups
           else sensor_groups)
        sensors []
  end.

(** [group_sensors_by_location(sensors)] *)
Definition group_sensors_by_location (sensors : list sensor_json) : groups :=
  match sensors with
  | [] => []
  | _ =>
      fold_left
        (fun location_groups sensor =>
           let location := get_str "location" sensor in
           let sensor_id := get_str "sensor_id" sensor in
           if truthy location && truthy sensor_id
           then append_to location sensor_id location_groups
           else location_groups)
        sensors []
  end.

(** [groups.get(key)] *)
Fixpoint group_of (key : string) (g : groups) : option (list string) :=
  match g with
  | [] => None
  | (k, ids) :: g' => if String.eqb k key then Some ids else group_of key g'
  end.

(** ** Vocabulary of the properties *)

(** A message that names a direction, then a value, then a threshold. *)
Definition states_in_order (message direction value threshold : string) : Prop :=
  exists a b c,
    message = (direction ++ a ++ value ++ b ++ threshold ++ c)%string.

(** The rows that [process_sensor_data] and [create_alert] build. *)
Definition new_sensor (sensor_data : SD.t) : Sensor.t :=
  Sensor.Build (SD.sensor_id sensor_data) (SD.name sensor_data)
    (SD.location sensor_data) (SD.sensor_type sensor_data).

Definition new_reading (e : env) (sensor_data : SD.t) : SensorReading.t :=
  SensorReading.Build (SD.sensor_id sensor_data)
    (match SD.timestamp sensor_data with
     | Some t => t
     | None => utcnow e ReadingDefaultNow
     end)
    (SD.value sensor_data) (SD.unit sensor_data).

Definition new_alert (e : env) (sensor_data : SD.t) (threshold : float)
    (message : string) (was_notified : Z) : Alert.t :=
  Alert.Build (SD.sensor_id sensor_data) (utcnow e AlertNow)
    (SD.value sensor_data) threshold message was_notified.

(** The registry row of an identifier, and the alert that puts a sensor in
    its cooldown at the time of the check. *)
Definition registered (sensor_id : string) (d : database) : option Sensor.t :=
  find (fun x => String.eqb (Sensor.sensor_id x) sensor_id) (sensors d).

Definition recent_alert (e : env) (sensor_id : string) (d : database)
  : option Alert.t :=
  find (is_recent sensor_id (utcnow e CooldownNow - one_hour)) (alerts d).

(** The sensor table once the registry step has run. *)
Definition sensors_resolved (sensor_data : SD.t) (d : database) : list Sensor.t :=
  match registered (SD.sensor_id sensor_data) d with
  | Some _ => sensors d
  | None => sensors d ++ [new_sensor sensor_data]
  end.

(** The state in which the alert stage starts: the sensor resolved and the
    reading committed. *)
Definition after_append (e : env) (sensor_data : SD.t) (s : state) : state :=
  State (Database (sensors_resolved sensor_data (store s))
           (sensor_readings (store s) ++ [new_reading e sensor_data])
           (alerts (store s)))
    [] (stdout s).

(** No statement of the registry step raises. *)
Definition registry_ok (e : env) : Prop :=
  fault e QuerySensor = None /\ fault e CommitSensor = None
  /\ fault e RefreshSensor = None.




(** The rows of the sensor table with a given identifier. *)
Definition rows_of (sensor_id : string) (d : database) : list Sensor.t :=
  filter (fun x => String.eqb (Sensor.sensor_id x) sensor_id) (sensors d).

Definition registry_unique (d : database) : Prop :=
  forall sensor_id, (List.length (rows_of sensor_id d) <= 1)%nat.

(** The dict [on_message] builds from a message: an error when a step of
    the construction raises, nothing when the topic has fewer than three
    parts. *)
Definition mqtt_decode (float_of_str : string -> option float) (e : env)
    (msg : MQTTMessage.t) : exn + option SD.t :=
  match MQTTMessage.payload msg with
  | inl ex => inl ex
  | inr payload =>
      let topic_parts := split "/" (MQTTMessage.topic msg) in
      if (3 <=? List.length topic_parts)%nat then
        match py_get payload "value" (PInt 0) with
        | inl ex => inl ex
        | inr v =>
            match py_float float_of_str v with
            | inl ex => inl ex
            | inr value =>
                match py_get payload "unit" (PStr "") with
                | inl ex => inl ex
                | inr unit =>
                    inr (Some (mqtt_sensor_data e
                                 (nth 1 topic_parts EmptyString)
                                 (nth 2 topic_parts EmptyString) value unit))
                end
            end
        end
      else inr None
  end.

(** The dict [add_sensor_data] builds from a request body and the registry. *)
Definition http_sensor_data (e : env) (data : SensorData.t) (d : database) : SD.t :=
  let sensor := registered (SensorData.sensor_id data) d in
  SD.Build
    (SensorData.sensor_id data)
    (match sensor with
     | Some x => Sensor.name x
     | None => SensorData.sensor_id data
     end)
    (match sensor with
     | Some x => Sensor.location x
     | None => "unknown"
     end)
    (match sensor with
     | Some x => Sensor.sensor_type x
     | None => hd EmptyString (split "_" (SensorData.sensor_id data))
     end)
    (SensorData.value data)
    (pyval_of_optional_str (SensorData.unit data))
    (Some (utcnow e TransportNow)).

(** The canonical reading of a dict: what the reading table stores. *)
Definition same_canonical (sd1 sd2 : SD.t) : Prop :=
  SD.sensor_id sd1 = SD.sensor_id sd2
  /\ SD.value sd1 = SD.value sd2
  /\ SD.unit sd1 = SD.unit sd2
  /\ SD.timestamp sd1 = SD.timestamp sd2.

(** The line [on_message] prints when it drops a message. *)
Definition mqtt_error_logged (ex : exn) (s : state) : state :=
  State (store s) (session s)
    (stdout s ++ [("Error processing MQTT message: " ++ ex)%string]).

(** ** Vocabulary of the further properties *)

(** Every reading and every alert names a sensor of the registry (the
    [ForeignKey("sensors.sensor_id")] of the two tables). *)
Definition names_registered (d : database) : Prop :=
  Forall (fun r => registered (SensorReading.sensor_id r) d <> None)
    (sensor_readings d)
  /\ Forall (fun a => registered (Alert.sensor_id a) d <> None) (alerts d).

(** The value of an alert lies strictly below or strictly above the
    threshold recorded with it. *)
Definition beyond_threshold (a : Alert.t) : bool :=
  PrimFloat.ltb (Alert.value a) (Alert.threshold a)
  || PrimFloat.ltb (Alert.threshold a) (Alert.value a).

(** One of the four bounds of the settings. *)
Definition configured_bound (settings : Settings) (x : float) : Prop :=
  x = TEMPERATURE_MIN settings \/ x = TEMPERATURE_MAX settings
  \/ x = HUMIDITY_MIN settings \/ x = HUMIDITY_MAX settings.

(** The reading table holds a reading of the alert's sensor and value. *)
Definition backed_by_reading (d : database) (a : Alert.t) : Prop :=
  exists r,
    In r (sensor_readings d)
    /\ SensorReading.sensor_id r = Alert.sensor_id a
    /\ SensorReading.value r = Alert.value a.

Definition alerts_justified (settings : Settings) (d : database) : Prop :=
  Forall (fun a => beyond_threshold a = true
                   /\ configured_bound settings (Alert.threshold a)
                   /\ backed_by_reading d a)
    (alerts d).

(** [c in s] *)
Fixpoint has_char (c : ascii) (s : string) : bool :=
  match s with
  | EmptyString => false
  | String c' s' => Ascii.eqb c' c || has_char c s'
  end.

(** The exception of the first MQTT call that raises, if one does. *)
Definition first_mqtt_error (b : startup_env) : option exn :=
  match mqtt_raises b NewClient with
  | Some ex => Some ex
  | None =>
      match mqtt_raises b Connect with
      | Some ex => Some ex
      | None => mqtt_raises b LoopStart
      end
  end.

(** The identifiers, in the order of the list, of the sensors whose value
    under [field] is [key], sensors with an empty or missing [field] or
    identifier left out. *)
Definition members (field key : string) (sensors : list sensor_json)
  : list string :=
  map (get_str "sensor_id")
    (filter (fun sensor =>
               String.eqb (get_str field sensor) key
               && truthy (get_str field sensor)
               && truthy (get_str "sensor_id" sensor))
       sensors).

(** ** Data of the examples *)

(** Python's printing and parsing of the few floats the examples use. *)
Definition float_table : list (float * string) :=
  [(0, "0.0"); (10, "10.0"); (20, "20.0"); (30, "30.0"); (35, "35.0");
   (50, "50.0"); (80, "80.0")]%float.

Definition example_str_of_float (f : float) : string :=
  match find (fun p => PrimFloat.eqb (fst p) f) float_table with
  | Some p => snd p
  | None => "nan"
  end.

Definition example_float_of_str (s : string) : option float :=
  match find (fun p => String.eqb (snd p) s) float_table with
  | Some p => Some (fst p)
  | None => None
  end.

(** A call during which every clock reading is [t] and nothing raises. *)
Definition at_time (t : datetime) : env := Env (fun _ => t) (fun _ => None).

(** Calls at time 0 during which one statement raises. *)
Definition reading_commit_raises : env :=
  Env (fun _ => 0)
    (fun site => match site with
                 | CommitReading => Some "database is locked"
                 | _ => None
                 end).

Definition recent_alert_query_raises : env :=
  Env (fun _ => 0)
    (fun site => match site with
                 | QueryRecentAlert => Some "database is locked"
                 | _ => None
                 end).


Definition empty_state : state := State empty_database [] [].

Definition two_hours : Z := 7200 * 1000000.

(** Readings of the sensor [temperature_den], as the request path builds
    them for a sensor not yet registered. *)
Definition den (value : float) (t : datetime) : SD.t :=
  SD.Build "temperature_den" "temperature_den" "unknown" "temperature"
    value (PStr "°C") (Some t).

Definition den_sensor : Sensor.t :=
  Sensor.Build "temperature_den" "temperature_den" "unknown" "temperature".

Definition den_high_alert (t : datetime) (was_notified : Z) : Alert.t :=
  Alert.Build "temperature_den" t 35 30
    "High temperature alert: 35.0°C is above threshold of 30.0°C" was_notified.

Definition pressure_reading : SD.t :=
  SD.Build "pressure_den" "pressure_den" "unknown" "pressure"
    35 (PStr "hPa") (Some 0).

(** Bus messages. *)
Definition den_message (payload : exn + pyval) : MQTTMessage.t :=
  MQTTMessage.Build "sensors/temperature/den" payload.

Definition malformed_json : exn + pyval :=
  inl "Expecting value: line 1 column 1 (char 0)".

Definition unit_only : list (string * pyval) := [("unit", PStr "°C")].

Definition den_mqtt_sensor : Sensor.t :=
  Sensor.Build "temperature_den" "Temperature Sensor" "Den" "temperature".

(** The same reading of 35 degrees for [temperature_den], as a request
    body and as a bus message. *)
Definition den_request : SensorData.t :=
  SensorData.Build "temperature_den" 35 (Some "°C").

Definition den_35_message : MQTTMessage.t :=
  den_message (inr (PDict [("value", PFloat 35); ("unit", PStr "°C")])).

Definition den_registered : state :=
  State (Database [den_mqtt_sensor] [] []) [] [].

(** A later reading of [temperature_den] that carries other metadata. *)
Definition den_renamed : SD.t :=
  SD.Build "temperature_den" "Another name" "Cellar" "humidity"
    20 (PStr "%") (Some 1).

(** The store after five readings appended at times 1 to 5. *)
Definition five_appends : state :=
  ingest_all example_str_of_float default_settings
    [(at_time 1, den 20 1); (at_time 2, den 20 2); (at_time 3, den 20 3);
     (at_time 4, den 20 4); (at_time 5, den 20 5)]
    empty_state.

(** A message whose payload carries a "timestamp" of its own. *)
Definition stamped_message : MQTTMessage.t :=
  den_message (inr (PDict [("value", PFloat 35); ("timestamp", PInt 7)])).

(** Readings of a second sensor, [temperature_attic]. *)
Definition attic (value : float) (t : datetime) : SD.t :=
  SD.Build "temperature_attic" "temperature_attic" "unknown" "temperature"
    value (PStr "°C") (Some t).

Definition four_hours : Z := 14400 * 1000000.
Definition six_hours : Z := 21600 * 1000000.

(** The store after three hot readings of [temperature_den], two hours
    apart: three alerts, at 0, two and four hours. *)
Definition three_alerts : state :=
  ingest_all example_str_of_float default_settings
    [(at_time 0, den 35 0); (at_time two_hours, den 35 two_hours);
     (at_time four_hours, den 35 four_hours)]
    empty_state.

(** A start-up during which the broker refuses the connection. *)
Definition broker_unreachable : startup_env :=
  StartupEnv None
    (fun step => match step with
                 | Connect => Some "[Errno 111] Connection refused"
                 | _ => None
                 end).

(** A request at time 0 during which the endpoint's query raises. *)
Definition endpoint_query_raises : env :=
  Env (fun _ => 0)
    (fun site => match site with
                 | EndpointQuerySensor => Some "database is locked"
                 | _ => None
                 end).

(** * Properties *)

(** ** Order facts about binary64 comparison *)

Lemma SFcompare_antisym (x y : spec_float) :
  SFcompare y x = option_map CompOpp (SFcompare x y).
Proof.
  destruct x as [sx|sx| |sx mx ex], y as [sy|sy| |sy my ey]; cbn;
    try destruct sx; try destruct sy; cbn; try reflexivity.
  all: rewrite (Z.compare_antisym ex ey);
    replace (Pos.compare_cont Eq my mx) with (CompOpp (Pos.compare_cont Eq mx my))
      by (rewrite Pos.compare_cont_antisym; reflexivity);
    destruct (ex ?= ey)%Z; cbn; try reflexivity;
    destruct (Pos.compare_cont Eq mx my); reflexivity.
Qed.

Lemma SFcompare_eq_r (x y a : spec_float) :
  SFcompare x y = Some Eq -> SFcompare a x = SFcompare a y.
Proof.
  destruct x as [sx|sx| |sx mx ex], y as [sy|sy| |sy my ey]; cbn;
    try destruct sx; try destruct sy; cbn; try discriminate; try reflexivity.
  all: try (intros _; destruct a as [sa|sa| |sa ma ea]; try destruct sa; reflexivity).
  all: destruct (ex ?= ey)%Z eqn:He; try discriminate;
    apply Z.compare_eq in He; subst ey; intros Hm;
    assert (Pos.compare_cont Eq mx my = Eq) as Hm'
      by (destruct (Pos.compare_cont Eq mx my); cbn in Hm; congruence);
    apply Pos.compare_eq in Hm'; subst my; reflexivity.
Qed.

Lemma ltb_asym (a b : float) :
  PrimFloat.ltb a b = true -> PrimFloat.ltb b a = false.
Proof.
  rewrite !ltb_spec. unfold SFltb.
  rewrite (SFcompare_antisym (Prim2SF a) (Prim2SF b)).
  destruct (SFcompare (Prim2SF a) (Prim2SF b)) as [[]|]; cbn; congruence.
Qed.

Lemma eqb_ltb_r (a b c : float) :
  PrimFloat.eqb a b = true -> PrimFloat.ltb c a = PrimFloat.ltb c b.
Proof.
  rewrite eqb_spec, !ltb_spec. unfold SFeqb, SFltb. intros H.
  rewrite (SFcompare_eq_r (Prim2SF a) (Prim2SF b) (Prim2SF c)); [reflexivity|].
  destruct (SFcompare (Prim2SF a) (Prim2SF b)) as [[]|]; congruence.
Qed.

Lemma eqb_ltb_l (a b c : float) :
  PrimFloat.eqb a b = true -> PrimFloat.ltb a c = PrimFloat.ltb b c.
Proof.
  rewrite eqb_spec, !ltb_spec. unfold SFeqb, SFltb. intros H.
  rewrite (SFcompare_antisym (Prim2SF c) (Prim2SF a)),
          (SFcompare_antisym (Prim2SF c) (Prim2SF b)).
  rewrite (SFcompare_eq_r (Prim2SF a) (Prim2SF b) (Prim2SF c)); [reflexivity|].
  destruct (SFcompare (Prim2SF a) (Prim2SF b)) as [[]|]; congruence.
Qed.

Lemma eqb_not_ltb (a b : float) :
  PrimFloat.eqb a b = true -> PrimFloat.ltb a b = false /\ PrimFloat.ltb b a = false.
Proof.
  rewrite eqb_spec, !ltb_spec. unfold SFeqb, SFltb.
  rewrite (SFcompare_antisym (Prim2SF a) (Prim2SF b)).
  destruct (SFcompare (Prim2SF a) (Prim2SF b)) as [[]|]; cbn; intros; try discriminate; auto.
Qed.

(** ** Lists *)

Lemma find_none_existsb {A} (f : A -> bool) (l : list A) :
  find f l = None -> existsb f l = false.
Proof.
  induction l as [|x l IH]; cbn; [reflexivity|].
  destruct (f x); [discriminate | exact IH].
Qed.

Lemma find_some_existsb {A} (f : A -> bool) (l : list A) (x : A) :
  find f l = Some x -> existsb f l = true.
Proof.
  induction l as [|y l IH]; cbn; [discriminate|].
  destruct (f y); [reflexivity | exact IH].
Qed.

(** The update queued by [alert.was_notified = 1] reaches the row that the
    preceding commit appended, and no other. *)
Lemma update_row_last {A} (f : A -> A) (l : list A) (a : A) :
  update_row (List.length l) f (l ++ [a]) = l ++ [f a].
Proof.
  unfold update_row.
  rewrite firstn_app, firstn_all, Nat.sub_diag. cbn [firstn].
  rewrite nth_error_app2 by lia. rewrite Nat.sub_diag. cbn [nth_error].
  rewrite skipn_all2 by (rewrite length_app; simpl; lia).
  rewrite !app_nil_r. reflexivity.
Qed.

(** ** The alert evaluator *)

Section Evaluator.

Variable str_of_float : float -> string.

Lemma check_alert_conditions_candidate e settings sensor_data :
  check_alert_conditions str_of_float e settings sensor_data =
  match alert_candidate str_of_float settings sensor_data with
  | Some (threshold, message) => create_alert e sensor_data threshold message
  | None => ret tt
  end.
Proof.
  unfold check_alert_conditions, alert_candidate.
  repeat match goal with |- context [if ?b then _ else _] => destruct b end;
    reflexivity.
Qed.

(** C1.  For a sensor type with a threshold pair [(lo, hi)] the evaluator
    yields a candidate exactly when [value < lo] or [value > hi]; a value
    strictly between the bounds, or equal to one of them (the bounds not
    being inverted), yields none; the candidate carries the crossed bound
    and a message naming the direction, the value and that bound in this
    order.  For any other sensor type there is no candidate and
    [check_alert_conditions] returns without touching the state.  The
    candidate is the one call of [create_alert] the function makes. *)
Theorem alert_evaluator_strict_thresholds settings sensor_data :
  let value := SD.value sensor_data in
  (forall lo hi,
     thresholds settings (SD.sensor_type sensor_data) = Some (lo, hi) ->
     ((exists c, alert_candidate str_of_float settings sensor_data = Some c)
      <-> (PrimFloat.ltb value lo = true \/ PrimFloat.ltb hi value = true))
     /\ (PrimFloat.ltb lo value = true -> PrimFloat.ltb value hi = true ->
         alert_candidate str_of_float settings sensor_data = None)
     /\ (PrimFloat.ltb hi lo = false ->
         PrimFloat.eqb value lo = true \/ PrimFloat.eqb value hi = true ->
         alert_candidate str_of_float settings sensor_data = None)
     /\ (forall threshold message,
           alert_candidate str_of_float settings sensor_data
           = Some (threshold, message) ->
           (PrimFloat.ltb value lo = true /\ threshold = lo
            /\ states_in_order message "Low"
                 (str_of_float value) (str_of_float lo))
           \/ (PrimFloat.ltb value lo = false /\ PrimFloat.ltb hi value = true
               /\ threshold = hi
               /\ states_in_order message "High"
                    (str_of_float value) (str_of_float hi))))
  /\ (thresholds settings (SD.sensor_type sensor_data) = None ->
      alert_candidate str_of_float settings sensor_data = None
      /\ forall e s,
           check_alert_conditions str_of_float e settings sensor_data s
           = (s, inr tt))
  /\ (forall e,
        check_alert_conditions str_of_float e settings sensor_data =
        match alert_candidate str_of_float settings sensor_data with
        | Some (threshold, message) =>
            create_alert e sensor_data threshold message
        | None => ret tt
        end).
Proof.
  intros value. split; [|split].
  - intros lo hi Hthr.
    assert (Hcand : alert_candidate str_of_float settings sensor_data =
                    if PrimFloat.ltb value lo then
                      Some (lo, if String.eqb (SD.sensor_type sensor_data) "temperature"
                                then low_temperature_message str_of_float value lo
                                else low_humidity_message str_of_float value lo)
                    else if PrimFloat.ltb hi value then
                      Some (hi, if String.eqb (SD.sensor_type sensor_data) "temperature"
                                then high_temperature_message str_of_float value hi
                                else high_humidity_message str_of_float value hi)
                    else None).
    { unfold thresholds in Hthr. unfold alert_candidate. fold value.
      destruct (String.eqb (SD.sensor_type sensor_data) "temperature").
      - injection Hthr as <- <-. reflexivity.
      - destruct (String.eqb (SD.sensor_type sensor_data) "humidity");
          [|discriminate].
        injection Hthr as <- <-. reflexivity. }
    rewrite Hcand. clear Hcand Hthr.
    repeat split.
    + intros [c Hc].
      destruct (PrimFloat.ltb value lo); [now left|].
      destruct (PrimFloat.ltb hi value); [now right|discriminate].
    + intros [H|H]; rewrite H; [eauto|].
      destruct (PrimFloat.ltb value lo); eauto.
    + intros H1 H2.
      rewrite (ltb_asym _ _ H1), (ltb_asym _ _ H2). reflexivity.
    + intros Hord [H|H].
      * rewrite (proj1 (eqb_not_ltb _ _ H)).
        rewrite (eqb_ltb_r _ _ hi H), Hord. reflexivity.
      * rewrite (eqb_ltb_l _ _ lo H), Hord.
        rewrite (proj2 (eqb_not_ltb _ _ H)). reflexivity.
    + intros threshold message.
      destruct (PrimFloat.ltb value lo) eqn:Hlo.
      * intros [= <- <-]. left. repeat split.
        destruct (String.eqb (SD.sensor_type sensor_data) "temperature").
        -- exists " temperature alert: ", "°C is below threshold of ", "°C".
           reflexivity.
        -- exists " humidity alert: ", "% is below threshold of ", "%".
           reflexivity.
      * destruct (PrimFloat.ltb hi value) eqn:Hhi; [|discriminate].
        intros [= <- <-]. right. repeat split.
        destruct (String.eqb (SD.sensor_type sensor_data) "temperature").
        -- exists " temperature alert: ", "°C is above threshold of ", "°C".
           reflexivity.
        -- exists " humidity alert: ", "% is above threshold of ", "%".
           reflexivity.
  - intros Hthr. unfold thresholds in Hthr.
    assert (Hnone : alert_candidate str_of_float settings sensor_data = None).
    { unfold alert_candidate.
      destruct (String.eqb (SD.sensor_type sensor_data) "temperature");
        [discriminate|].
      destruct (String.eqb (SD.sensor_type sensor_data) "humidity");
        [discriminate|reflexivity]. }
    split; [exact Hnone|].
    intros e s. rewrite check_alert_conditions_candidate, Hnone. reflexivity.
  - intros e. apply check_alert_conditions_candidate.
Qed.

End Evaluator.

(** ** One call of [process_sensor_data] *)

(** Case analysis along the statements of [process_sensor_data], in the
    order in which they run. *)
Ltac break_site site :=
  match goal with
  | |- context [match fault ?e site with _ => _ end] =>
      destruct (fault e site) eqn:?
  end.

Ltac break_match :=
  first
    [ break_site QuerySensor
    | match goal with
      | H : find ?f ?l = None |- context [existsb ?f ?l] =>
          rewrite (find_none_existsb f l H)
      | H : find ?f ?l = Some _ |- context [existsb ?f ?l] =>
          rewrite (find_some_existsb f l _ H)
      | |- context [match find ?f (sensors ?d) with _ => _ end] =>
          destruct (find f (sensors d)) eqn:?
      end
    | break_site CommitSensor
    | break_site RefreshSensor
    | break_site CommitReading
    | match goal with
      | |- context [match alert_candidate ?a ?b ?c with _ => _ end] =>
          destruct (alert_candidate a b c) as [[? ?]|] eqn:?
      end
    | break_site QueryRecentAlert
    | match goal with
      | |- context [match find ?f (alerts ?d) with _ => _ end] =>
          destruct (find f (alerts d)) eqn:?
      end
    | break_site CommitAlert
    | rewrite update_row_last
    | break_site CommitNotified ].

Ltac unfold_process :=
  unfold run, outcome, process_sensor_data;
  rewrite ?check_alert_conditions_candidate;
  unfold sensors_resolved, registered, recent_alert, create_alert,
    bind, try_finally, try_except,
    open_session, query_sensor, query_recent_alert, next_alert_row, db_add,
    db_commit, db_refresh, db_rollback, db_close, print, ret;
  cbn.

Ltac run_process := unfold_process; repeat (break_match; cbn).

Section Pipeline.

Variable str_of_float : float -> string.

Lemma process_returns e settings sensor_data s :
  outcome (process_sensor_data str_of_float e settings sensor_data) s = inr tt.
Proof. run_process; reflexivity. Qed.

Lemma process_closes_session e settings sensor_data s :
  session (run (process_sensor_data str_of_float e settings sensor_data) s) = [].
Proof. run_process; reflexivity. Qed.

Lemma process_sensors e settings sensor_data s :
  let s' := run (process_sensor_data str_of_float e settings sensor_data) s in
  sensors (store s') = sensors (store s)
  \/ (registered (SD.sensor_id sensor_data) (store s) = None
      /\ sensors (store s') = sensors (store s) ++ [new_sensor sensor_data]).
Proof. run_process; auto. Qed.

Lemma process_readings e settings sensor_data s :
  let s' := run (process_sensor_data str_of_float e settings sensor_data) s in
  sensor_readings (store s') = sensor_readings (store s)
  \/ sensor_readings (store s')
     = sensor_readings (store s) ++ [new_reading e sensor_data].
Proof. run_process; auto. Qed.

Lemma process_alerts e settings sensor_data s :
  let s' := run (process_sensor_data str_of_float e settings sensor_data) s in
  alerts (store s') = alerts (store s)
  \/ exists threshold message flag,
       alert_candidate str_of_float settings sensor_data
       = Some (threshold, message)
       /\ recent_alert e (SD.sensor_id sensor_data) (store s) = None
       /\ alerts (store s')
          = alerts (store s) ++ [new_alert e sensor_data threshold message flag]
       /\ (flag = 1 \/ (flag = 0 /\ fault e CommitNotified <> None))
       /\ sensor_readings (store s')
          = sensor_readings (store s) ++ [new_reading e sensor_data].
Proof.
  run_process; auto.
  all: right; do 3 eexists; repeat split; try eassumption; try reflexivity.
  all: try (left; reflexivity).
  all: try (right; split; [reflexivity|congruence]).
Qed.

(** When no statement raises, the call is the three steps in a row. *)
Lemma process_no_fault e settings sensor_data s :
  no_fault e ->
  run (process_sensor_data str_of_float e settings sensor_data) s =
  State
    (Database
       (sensors_resolved sensor_data (store s))
       (sensor_readings (store s) ++ [new_reading e sensor_data])
       (match alert_candidate str_of_float settings sensor_data with
        | Some (threshold, message) =>
            match recent_alert e (SD.sensor_id sensor_data) (store s) with
            | Some _ => alerts (store s)
            | None =>
                alerts (store s) ++ [new_alert e sensor_data threshold message 1]
            end
        | None => alerts (store s)
        end))
    [] (stdout s).
Proof.
  intros H. unfold_process. rewrite !H. cbn.
  repeat (break_match; cbn); reflexivity.
Qed.

(** The append raises: nothing of the alert stage runs, the error is
    printed, the call returns. *)
Lemma process_append_raises e settings sensor_data s ex :
  registry_ok e -> fault e CommitReading = Some ex ->
  process_sensor_data str_of_float e settings sensor_data s =
  (State
     (Database (sensors_resolved sensor_data (store s))
        (sensor_readings (store s)) (alerts (store s)))
     [] (stdout s ++ [("Error storing sensor data: " ++ ex)%string]),
   inr tt).
Proof.
  intros (H1 & H2 & H3) H4. unfold_process. rewrite H1, ?H2, ?H3, ?H4. cbn.
  repeat (break_match; cbn); rewrite ?H2, ?H3, ?H4; cbn; try reflexivity.
  all: destruct (store s); reflexivity.
Qed.

(** The append succeeds: the call is the alert stage, run from
    [after_append] under its own handler, then the session closed. *)
Lemma process_append_succeeds e settings sensor_data s :
  registry_ok e -> fault e CommitReading = None ->
  process_sensor_data str_of_float e settings sensor_data s =
  try_finally
    (try_except
       (check_alert_conditions str_of_float e settings sensor_data)
       (fun ex => print ("Error checking alert conditions: " ++ ex)%string))
    db_close
    (after_append e sensor_data s).
Proof.
  intros (H1 & H2 & H3) H4. unfold after_append. unfold_process.
  rewrite H1, ?H2, ?H3, ?H4. cbn.
  repeat (break_match; cbn); rewrite ?H2, ?H3, ?H4; cbn; try reflexivity.
Qed.

(** C3, as the code has it.  The registry step having passed: when the
    commit of the reading raises, the call ends with the tables as the
    registry step left them (no reading, no alert: the alert stage does not
    run) and the error printed as a storing error, and it returns normally:
    the error is not raised.  When the commit succeeds and the alert stage
    then raises, the reading stays in the table, the call returns normally
    and what is printed is an alert-check error. *)
Theorem append_failure_aborts_alert_failure_keeps_reading
    e settings sensor_data s :
  registry_ok e ->
  (forall ex,
     fault e CommitReading = Some ex ->
     process_sensor_data str_of_float e settings sensor_data s =
     (State
        (Database (sensors_resolved sensor_data (store s))
           (sensor_readings (store s)) (alerts (store s)))
        [] (stdout s ++ [("Error storing sensor data: " ++ ex)%string]),
      inr tt))
  /\ (fault e CommitReading = None ->
      forall ex,
        outcome (check_alert_conditions str_of_float e settings sensor_data)
          (after_append e sensor_data s) = inl ex ->
        let s' := run (process_sensor_data str_of_float e settings sensor_data) s in
        sensor_readings (store s')
        = sensor_readings (store s) ++ [new_reading e sensor_data]
        /\ outcome (process_sensor_data str_of_float e settings sensor_data) s
           = inr tt
        /\ stdout s'
           = stdout s ++ [("Error checking alert conditions: " ++ ex)%string]).
Proof.
  intros Hreg. split.
  - intros ex Hex. now apply process_append_raises.
  - intros Hok ex Hraise s'. subst s'.
    split; [|split; [apply process_returns|]].
    all: unfold run;
      rewrite (process_append_succeeds e settings sensor_data s Hreg Hok);
      revert Hraise; unfold outcome;
      rewrite check_alert_conditions_candidate;
      unfold try_finally, try_except, db_close, print;
      (destruct (alert_candidate str_of_float settings sensor_data)
         as [[thr msg]|]; [|discriminate]);
      unfold create_alert, bind, query_recent_alert, next_alert_row, db_add,
        db_commit, ret, after_append; cbn;
      repeat (break_match; cbn); try discriminate;
      intros [= <-]; reflexivity.
Qed.

(** C4, as the code has it.  When the commit of the reading raises, the
    error does not reach the caller: [process_sensor_data] returns normally,
    having printed the error and left readings and alerts as they were; the
    next reading, handled without a fault, is stored. *)
Theorem storage_error_is_printed_and_call_returns
    e settings sensor_data s ex :
  registry_ok e -> fault e CommitReading = Some ex ->
  let s' := run (process_sensor_data str_of_float e settings sensor_data) s in
  outcome (process_sensor_data str_of_float e settings sensor_data) s = inr tt
  /\ stdout s' = stdout s ++ [("Error storing sensor data: " ++ ex)%string]
  /\ sensor_readings (store s') = sensor_readings (store s)
  /\ alerts (store s') = alerts (store s)
  /\ session s' = []
  /\ forall e2 sensor_data2,
       no_fault e2 ->
       sensor_readings
         (store (run (process_sensor_data str_of_float e2 settings sensor_data2) s'))
       = sensor_readings (store s) ++ [new_reading e2 sensor_data2].
Proof.
  intros Hreg Hex s'. subst s'. unfold run, outcome.
  rewrite (process_append_raises e settings sensor_data s ex Hreg Hex).
  cbn [fst snd store stdout session sensor_readings alerts].
  repeat split.
  intros e2 sd2 H2.
  pose proof (process_no_fault e2 settings sd2) as Hrun. unfold run in Hrun.
  rewrite Hrun by assumption. reflexivity.
Qed.

End Pipeline.

(** ** Runs of calls *)



Lemma rows_of_app sensor_id ss rs al x :
  rows_of sensor_id (Database (ss ++ [x]) rs al)
  = rows_of sensor_id (Database ss rs al)
    ++ (if String.eqb (Sensor.sensor_id x) sensor_id then [x] else []).
Proof. unfold rows_of. cbn. rewrite filter_app. reflexivity. Qed.

Lemma find_none_filter {A} (f : A -> bool) (l : list A) :
  find f l = None -> filter f l = [].
Proof.
  induction l as [|x l IH]; cbn; [reflexivity|].
  destruct (f x); [discriminate | exact IH].
Qed.

Lemma find_some_filter {A} (f : A -> bool) (l : list A) (x : A) :
  find f l = Some x -> (1 <= List.length (filter f l))%nat.
Proof.
  induction l as [|y l IH]; cbn; [discriminate|].
  destruct (f y); cbn; [lia | exact IH].
Qed.

Lemma find_app_some {A} (f : A -> bool) (l l' : list A) (x : A) :
  find f l = Some x -> find f (l ++ l') = Some x.
Proof.
  induction l as [|y l IH]; cbn; [discriminate|].
  destruct (f y); [auto | exact IH].
Qed.


Lemma find_app_none {A} (f : A -> bool) (l l' : list A) :
  find f l = None -> find f (l ++ l') = find f l'.
Proof.
  induction l as [|y l IH]; cbn; [reflexivity|].
  destruct (f y); [discriminate | exact IH].
Qed.

Section Runs.

Variable str_of_float : float -> string.

Lemma ingest_all_app settings calls1 calls2 : forall s,
  ingest_all str_of_float settings (calls1 ++ calls2) s
  = ingest_all str_of_float settings calls2
      (ingest_all str_of_float settings calls1 s).
Proof.
  induction calls1 as [|[e sd] calls1 IH]; intros s; cbn [ingest_all app];
    [reflexivity|apply IH].
Qed.

Lemma process_registry_ok e settings sensor_data s :
  registry_ok e ->
  sensors (store (run (process_sensor_data str_of_float e settings sensor_data) s))
  = sensors_resolved sensor_data (store s).
Proof.
  intros (H1 & H2 & H3). unfold_process. rewrite H1, ?H2, ?H3. cbn.
  repeat (break_match; cbn); rewrite ?H2, ?H3; cbn; reflexivity.
Qed.





(** C8.  Whatever the calls and whatever raises: an identifier never gets
    a second row, and a registered identifier keeps its row, the metadata
    of later readings notwithstanding; a call for a registered identifier
    leaves the sensor table as it is.  After a run in which one call names
    an identifier and passes the registry step without a raise, the
    identifier has exactly one row, whatever the other calls are. *)
Theorem sensor_resolution_idempotent settings :
  (forall calls s,
     registry_unique (store s) ->
     registry_unique (store (ingest_all str_of_float settings calls s)))
  /\ (forall calls s sensor_id x,
        registered sensor_id (store s) = Some x ->
        registered sensor_id (store (ingest_all str_of_float settings calls s))
        = Some x)
  /\ (forall e sensor_data s x,
        registered (SD.sensor_id sensor_data) (store s) = Some x ->
        sensors (store (run (process_sensor_data str_of_float e settings
                               sensor_data) s))
        = sensors (store s))
  /\ (forall before e sensor_data after s,
        registry_unique (store s) ->
        registry_ok e ->
        List.length
          (rows_of (SD.sensor_id sensor_data)
             (store (ingest_all str_of_float settings
                       (before ++ (e, sensor_data) :: after) s)))
        = 1%nat).
Proof.
  assert (Hunique : forall calls s,
     registry_unique (store s) ->
     registry_unique (store (ingest_all str_of_float settings calls s))).
  { induction calls as [|[e sd] calls IH]; intros s Hs; cbn; [exact Hs|].
    apply IH. intros sid.
    pose proof (process_sensors str_of_float e settings sd s) as Hstep.
    cbn zeta in Hstep. unfold rows_of.
    destruct Hstep as [->|[Hnone ->]]; [apply Hs|].
    rewrite filter_app, length_app. cbn.
    destruct (String.eqb (SD.sensor_id sd) sid) eqn:E.
    - apply String.eqb_eq in E. subst sid.
      unfold registered in Hnone. rewrite (find_none_filter _ _ Hnone).
      cbn. lia.
    - cbn. specialize (Hs sid). unfold rows_of in Hs. lia. }
  assert (Hkeeps : forall calls s sensor_id x,
     registered sensor_id (store s) = Some x ->
     registered sensor_id (store (ingest_all str_of_float settings calls s))
     = Some x).
  { induction calls as [|[e sd] calls IH]; intros s sid x Hx; cbn; [exact Hx|].
    apply IH.
    pose proof (process_sensors str_of_float e settings sd s) as Hstep.
    cbn zeta in Hstep. unfold registered in *.
    destruct Hstep as [->|[_ ->]]; [exact Hx|].
    now apply find_app_some. }
  split; [exact Hunique|]. split; [exact Hkeeps|]. split.
  - intros e sd s x Hx.
    pose proof (process_sensors str_of_float e settings sd s) as Hstep.
    cbn zeta in Hstep. destruct Hstep as [H|[Hnone _]]; [exact H|congruence].
  - intros before e sd after s Hs Hreg.
    rewrite ingest_all_app. cbn [ingest_all].
    set (s0 := ingest_all str_of_float settings before s).
    set (s1 := run (process_sensor_data str_of_float e settings sd) s0).
    assert (Hreg1 : exists x, registered (SD.sensor_id sd) (store s1) = Some x).
    { unfold registered. subst s1.
      rewrite (process_registry_ok e settings sd s0 Hreg).
      unfold sensors_resolved, registered.
      destruct (find _ (sensors (store s0))) as [x|] eqn:Hfind.
      - exists x. exact Hfind.
      - exists (new_sensor sd).
        rewrite (find_app_none _ _ _ Hfind). cbn.
        rewrite String.eqb_refl. reflexivity. }
    destruct Hreg1 as [x Hx].
    pose proof (Hkeeps after s1 _ x Hx) as Hfinal.
    assert (Hs1 : registry_unique (store s1)).
    { exact (Hunique [(e, sd)] s0 (Hunique before s Hs)). }
    pose proof (Hunique after s1 Hs1 (SD.sensor_id sd)) as Hle.
    unfold registered in Hfinal. apply find_some_filter in Hfinal.
    unfold rows_of in *. lia.
Qed.

End Runs.

(** ** The two transports *)

Section Transports.

Variable str_of_float : float -> string.
Variable float_of_str : string -> option float.

Lemma on_message_decode e settings msg s :
  on_message str_of_float float_of_str e settings msg s =
  match mqtt_decode float_of_str e msg with
  | inl ex => (mqtt_error_logged ex s, inr tt)
  | inr None => (s, inr tt)
  | inr (Some sensor_data) =>
      process_sensor_data str_of_float e settings sensor_data s
  end.
Proof.
  unfold on_message, mqtt_decode, try_except, bind, lift, print, ret,
    mqtt_error_logged.
  destruct (MQTTMessage.payload msg) as [ex|payload]; [reflexivity|].
  destruct (3 <=? List.length (split "/" (MQTTMessage.topic msg)))%nat;
    [|reflexivity].
  destruct (py_get payload "value" (PInt 0)) as [ex|v]; [reflexivity|].
  destruct (py_float float_of_str v) as [ex|value]; [reflexivity|].
  destruct (py_get payload "unit" (PStr "")) as [ex|unit]; [reflexivity|].
  match goal with
  | |- context [process_sensor_data ?a ?b ?c ?d ?s0] =>
      pose proof (process_returns a b c d s0) as Hret; unfold outcome in Hret;
      destruct (process_sensor_data a b c d s0) as [s' r]
  end.
  cbn in Hret. subst r. reflexivity.
Qed.

Lemma post_sensor_data_process e settings data s :
  fault e EndpointQuerySensor = None ->
  post_sensor_data str_of_float e settings data s =
  process_sensor_data str_of_float e settings
    (http_sensor_data e data (store s)) s.
Proof.
  intros H. unfold post_sensor_data, add_sensor_data, bind, query_sensor, ret.
  rewrite H. reflexivity.
Qed.

Lemma alert_candidate_canonical settings sd1 sd2 :
  SD.sensor_type sd1 = SD.sensor_type sd2 -> SD.value sd1 = SD.value sd2 ->
  alert_candidate str_of_float settings sd1
  = alert_candidate str_of_float settings sd2.
Proof. unfold alert_candidate. intros -> ->. reflexivity. Qed.

Lemma process_same_canonical e settings sd1 sd2 s :
  same_canonical sd1 sd2 ->
  let s1 := run (process_sensor_data str_of_float e settings sd1) s in
  let s2 := run (process_sensor_data str_of_float e settings sd2) s in
  sensor_readings (store s1) = sensor_readings (store s2)
  /\ (SD.sensor_type sd1 = SD.sensor_type sd2 ->
      alerts (store s1) = alerts (store s2) /\ stdout s1 = stdout s2)
  /\ (registered (SD.sensor_id sd1) (store s) <> None ->
      sensors (store s1) = sensors (store s2))
  /\ (SD.sensor_type sd1 = SD.sensor_type sd2 ->
      registered (SD.sensor_id sd1) (store s) <> None ->
      s1 = s2).
Proof.
  intros (Hid & Hv & Hu & Ht) s1 s2. subst s1 s2.
  split; [|split; [|split]].
  - unfold_process. rewrite <- ?Hid, <- ?Hv, <- ?Hu, <- ?Ht.
    repeat (break_match; cbn); reflexivity.
  - intros Hty.
    split; unfold_process;
      rewrite (alert_candidate_canonical settings sd2 sd1) by congruence;
      rewrite <- ?Hid, <- ?Hv, <- ?Hu, <- ?Ht;
      repeat (break_match; cbn); reflexivity.
  - intros Hreg. unfold registered in Hreg. unfold_process.
    rewrite <- ?Hid, <- ?Hv, <- ?Hu, <- ?Ht.
    repeat (break_match; cbn); congruence.
  - intros Hty Hreg. unfold registered in Hreg. unfold_process.
    rewrite (alert_candidate_canonical settings sd2 sd1) by congruence.
    rewrite <- ?Hid, <- ?Hv, <- ?Hu, <- ?Ht.
    repeat (break_match; cbn); congruence.
Qed.

(** C5, as the code has it.  [on_message] never raises.  A payload that is
    not valid JSON, or any other error while the dict is built, leaves the
    tables as they are and prints one error line.  A topic with fewer than
    three parts (the payload being valid JSON) leaves the whole state as it
    is: nothing is printed.  A JSON object without a "value" key is not
    dropped: it is ingested with the value 0.  The message after a dropped
    one is handled from the state the dropped one left. *)
Theorem on_message_drops_or_defaults e settings msg s :
  outcome (on_message str_of_float float_of_str e settings msg) s = inr tt
  /\ (forall ex,
        MQTTMessage.payload msg = inl ex ->
        on_message str_of_float float_of_str e settings msg s
        = (mqtt_error_logged ex s, inr tt))
  /\ (forall ex,
        mqtt_decode float_of_str e msg = inl ex ->
        on_message str_of_float float_of_str e settings msg s
        = (mqtt_error_logged ex s, inr tt))
  /\ (forall payload,
        MQTTMessage.payload msg = inr payload ->
        (List.length (split "/" (MQTTMessage.topic msg)) < 3)%nat ->
        on_message str_of_float float_of_str e settings msg s = (s, inr tt))
  /\ (forall kv,
        MQTTMessage.payload msg = inr (PDict kv) ->
        assoc "value" kv = None ->
        (3 <= List.length (split "/" (MQTTMessage.topic msg)))%nat ->
        on_message str_of_float float_of_str e settings msg s
        = process_sensor_data str_of_float e settings
            (mqtt_sensor_data e
               (nth 1 (split "/" (MQTTMessage.topic msg)) EmptyString)
               (nth 2 (split "/" (MQTTMessage.topic msg)) EmptyString)
               0%float
               (match assoc "unit" kv with Some u => u | None => PStr "" end))
            s)
  /\ (forall ex rest,
        mqtt_decode float_of_str e msg = inl ex ->
        deliver_all str_of_float float_of_str settings ((e, msg) :: rest) s
        = deliver_all str_of_float float_of_str settings rest
            (mqtt_error_logged ex s)).
Proof.
  pose proof (on_message_decode e settings msg s) as Hdec.
  split; [|split; [|split; [|split; [|split]]]].
  - unfold outcome. rewrite Hdec.
    destruct (mqtt_decode float_of_str e msg) as [ex|[sd|]];
      [reflexivity| |reflexivity].
    apply process_returns.
  - intros ex Hex. rewrite Hdec. unfold mqtt_decode. rewrite Hex. reflexivity.
  - intros ex Hex. rewrite Hdec, Hex. reflexivity.
  - intros payload Hp Hlen. rewrite Hdec. unfold mqtt_decode. rewrite Hp.
    apply Nat.leb_gt in Hlen. cbn zeta. rewrite Hlen. reflexivity.
  - intros kv Hp Hval Hlen. rewrite Hdec. unfold mqtt_decode. rewrite Hp.
    apply Nat.leb_le in Hlen. cbn zeta. rewrite Hlen.
    unfold py_get. rewrite Hval. reflexivity.
  - intros ex rest Hex. cbn [deliver_all]. unfold run.
    rewrite Hdec, Hex. reflexivity.
Qed.

(** C7, as the code has it.  Both transports end in the same
    [process_sensor_data], each with the dict it builds.  When the two
    dicts carry the same canonical reading, the reading table ends the
    same; the alert table ends the same when the dicts also name the same
    sensor type; the sensor table ends the same when the sensor is already
    registered; with both, the two final states are equal.  For a sensor
    not yet registered each transport registers the metadata of its own
    dict: the request path the identifier as name, "unknown" as location
    and the text before the first underscore as type. *)
Theorem transports_agree_up_to_fallback_metadata e settings data msg sd s :
  fault e EndpointQuerySensor = None ->
  mqtt_decode float_of_str e msg = inr (Some sd) ->
  same_canonical (http_sensor_data e data (store s)) sd ->
  let s1 := run (post_sensor_data str_of_float e settings data) s in
  let s2 := run (on_message str_of_float float_of_str e settings msg) s in
  post_sensor_data str_of_float e settings data s
  = process_sensor_data str_of_float e settings
      (http_sensor_data e data (store s)) s
  /\ on_message str_of_float float_of_str e settings msg s
     = process_sensor_data str_of_float e settings sd s
  /\ sensor_readings (store s1) = sensor_readings (store s2)
  /\ (SD.sensor_type (http_sensor_data e data (store s)) = SD.sensor_type sd ->
      alerts (store s1) = alerts (store s2))
  /\ (registered (SensorData.sensor_id data) (store s) <> None ->
      sensors (store s1) = sensors (store s2))
  /\ (SD.sensor_type (http_sensor_data e data (store s)) = SD.sensor_type sd ->
      registered (SensorData.sensor_id data) (store s) <> None ->
      s1 = s2)
  /\ (registered (SensorData.sensor_id data) (store s) = None ->
      registry_ok e ->
      sensors (store s1)
      = sensors (store s)
        ++ [Sensor.Build (SensorData.sensor_id data)
              (SensorData.sensor_id data) "unknown"
              (hd EmptyString (split "_" (SensorData.sensor_id data)))]
      /\ sensors (store s2)
         = sensors (store s)
           ++ [Sensor.Build (SD.sensor_id sd) (SD.name sd) (SD.location sd)
                 (SD.sensor_type sd)]).
Proof.
  intros Hq Hdec Hsame s1 s2. subst s1 s2. unfold run.
  rewrite (post_sensor_data_process e settings data s Hq).
  rewrite (on_message_decode e settings msg s), Hdec.
  destruct (process_same_canonical e settings _ _ s Hsame)
    as (Hr & Ha & Hs & Hall).
  unfold run in Hr, Ha, Hs, Hall.
  repeat match goal with |- _ /\ _ => split end; auto.
  - intros Hty. apply (Ha Hty).
  - intros Hnew Hreg.
    pose proof (process_registry_ok str_of_float e settings
                  (http_sensor_data e data (store s)) s Hreg) as H1.
    pose proof (process_registry_ok str_of_float e settings sd s Hreg) as H2.
    unfold run in H1, H2. rewrite H1, H2.
    unfold sensors_resolved.
    destruct Hsame as (Hid & _). cbn [http_sensor_data SD.sensor_id] in Hid.
    assert (Hnew' : registered (SD.sensor_id sd) (store s) = None)
      by (rewrite <- Hid; exact Hnew).
    rewrite Hnew'. cbn [http_sensor_data SD.sensor_id]. rewrite Hnew.
    unfold new_sensor, http_sensor_data. rewrite Hnew.
    split; reflexivity.
Qed.

(** C10.  Through either transport the dict handed to
    [process_sensor_data] carries the transport's own clock reading as its
    timestamp, whatever the request or the message holds, and a reading
    that reaches the table is stamped with it; when nothing raises the
    reading does reach the table. *)
Theorem stored_timestamp_is_transport_clock e settings :
  (forall data s,
     match outcome (add_sensor_data e data) s with
     | inr sensor_data =>
         SD.timestamp sensor_data = Some (utcnow e TransportNow)
     | inl _ => True
     end)
  /\ (forall msg,
        match mqtt_decode float_of_str e msg with
        | inr (Some sensor_data) =>
            SD.timestamp sensor_data = Some (utcnow e TransportNow)
        | _ => True
        end)
  /\ (forall data s,
        let s' := run (post_sensor_data str_of_float e settings data) s in
        sensor_readings (store s') = sensor_readings (store s)
        \/ exists r,
             sensor_readings (store s') = sensor_readings (store s) ++ [r]
             /\ SensorReading.timestamp r = utcnow e TransportNow)
  /\ (forall msg s,
        let s' := run (on_message str_of_float float_of_str e settings msg) s in
        sensor_readings (store s') = sensor_readings (store s)
        \/ exists r,
             sensor_readings (store s') = sensor_readings (store s) ++ [r]
             /\ SensorReading.timestamp r = utcnow e TransportNow)
  /\ (no_fault e ->
      (forall data s,
         exists r,
           sensor_readings
             (store (run (post_sensor_data str_of_float e settings data) s))
           = sensor_readings (store s) ++ [r]
           /\ SensorReading.timestamp r = utcnow e TransportNow)
      /\ (forall msg sensor_data s,
            mqtt_decode float_of_str e msg = inr (Some sensor_data) ->
            exists r,
              sensor_readings
                (store (run (on_message str_of_float float_of_str e settings
                               msg) s))
              = sensor_readings (store s) ++ [r]
              /\ SensorReading.timestamp r = utcnow e TransportNow)).
Proof.
  assert (Hmqtt : forall msg,
        match mqtt_decode float_of_str e msg with
        | inr (Some sensor_data) =>
            SD.timestamp sensor_data = Some (utcnow e TransportNow)
        | _ => True
        end).
  { intros msg. unfold mqtt_decode.
    destruct (MQTTMessage.payload msg) as [ex|payload]; [exact I|].
    cbn zeta.
    destruct (3 <=? List.length (split "/" (MQTTMessage.topic msg)))%nat;
      [|exact I].
    destruct (py_get payload "value" (PInt 0)) as [ex|v]; [exact I|].
    destruct (py_float float_of_str v) as [ex|value]; [exact I|].
    destruct (py_get payload "unit" (PStr "")) as [ex|unit]; [exact I|].
    reflexivity. }
  assert (Hstamp : forall sensor_data s,
        SD.timestamp sensor_data = Some (utcnow e TransportNow) ->
        let s' := run (process_sensor_data str_of_float e settings sensor_data) s in
        sensor_readings (store s') = sensor_readings (store s)
        \/ exists r,
             sensor_readings (store s') = sensor_readings (store s) ++ [r]
             /\ SensorReading.timestamp r = utcnow e TransportNow).
  { intros sd s Hts s'. subst s'.
    destruct (process_readings str_of_float e settings sd s) as [H|H];
      [now left|right].
    exists (new_reading e sd). split; [exact H|].
    unfold new_reading. cbn. rewrite Hts. reflexivity. }
  split; [|split; [exact Hmqtt|split; [|split]]].
  - intros data s. unfold outcome, add_sensor_data, bind, query_sensor, ret.
    destruct (fault e EndpointQuerySensor); reflexivity || exact I.
  - intros data s s'. subst s'. unfold run, post_sensor_data, add_sensor_data,
      bind, query_sensor, ret.
    destruct (fault e EndpointQuerySensor); [now left|].
    apply Hstamp. reflexivity.
  - intros msg s s'. subst s'. unfold run. rewrite on_message_decode.
    specialize (Hmqtt msg).
    destruct (mqtt_decode float_of_str e msg) as [ex|[sd|]];
      [now left| |now left].
    apply Hstamp. exact Hmqtt.
  - intros Hnf. split.
    + intros data s.
      unfold run. rewrite (post_sensor_data_process e settings data s (Hnf _)).
      pose proof (process_no_fault str_of_float e settings
                    (http_sensor_data e data (store s)) s Hnf) as Hrun.
      unfold run in Hrun. rewrite Hrun. cbn [store sensor_readings].
      eexists. split; [reflexivity|reflexivity].
    + intros msg sd s Hdec.
      unfold run. rewrite on_message_decode, Hdec.
      pose proof (process_no_fault str_of_float e settings sd s Hnf) as Hrun.
      unfold run in Hrun. rewrite Hrun. cbn [store sensor_readings].
      eexists. split; [reflexivity|].
      specialize (Hmqtt msg). rewrite Hdec in Hmqtt.
      unfold new_reading. cbn. rewrite Hmqtt. reflexivity.
Qed.

End Transports.

(** ** The read endpoint *)

Lemma filter_filter {A} (f g : A -> bool) (l : list A) :
  filter g (filter f l) = filter (fun x => f x && g x) l.
Proof.
  induction l as [|x l IH]; cbn; [reflexivity|].
  destruct (f x); cbn; [|exact IH].
  destruct (g x); cbn; rewrite IH; reflexivity.
Qed.

Lemma strongly_sorted_app_inv {A} (R : A -> A -> Prop) (l1 l2 : list A) :
  StronglySorted R (l1 ++ l2) ->
  StronglySorted R l1 /\ forall x y, In x l1 -> In y l2 -> R x y.
Proof.
  induction l1 as [|a l1 IH]; cbn; intros H.
  - split; [constructor|]. intros x y [].
  - inversion H as [|b l Hs Hall]; subst.
    destruct (IH Hs) as [Hs1 Hcross]. split.
    + constructor; [exact Hs1|].
      apply Forall_app in Hall. exact (proj1 Hall).
    + intros x y [<-|Hx] Hy.
      * rewrite Forall_forall in Hall. apply Hall, in_or_app. now right.
      * now apply Hcross.
Qed.

Lemma insert_desc_permutation r l : Permutation (insert_desc r l) (r :: l).
Proof.
  induction l as [|x l IH]; cbn; [reflexivity|].
  destruct (SensorReading.timestamp x <=? SensorReading.timestamp r);
    [reflexivity|].
  rewrite IH. apply perm_swap.
Qed.

Lemma sort_desc_permutation l : Permutation (sort_desc l) l.
Proof.
  induction l as [|x l IH]; cbn; [reflexivity|].
  rewrite insert_desc_permutation. now constructor.
Qed.

Lemma insert_desc_sorted r l :
  StronglySorted later_or_equal l ->
  StronglySorted later_or_equal (insert_desc r l).
Proof.
  induction l as [|x l IH]; cbn; intros H.
  - repeat constructor.
  - inversion H as [|y l' Hs Hall]; subst.
    destruct (Z.leb_spec (SensorReading.timestamp x) (SensorReading.timestamp r))
      as [Hle|Hlt].
    + constructor; [exact H|].
      constructor; [exact Hle|].
      eapply Forall_impl; [|exact Hall].
      unfold later_or_equal. cbn. intros a Ha. lia.
    + constructor; [exact (IH Hs)|].
      apply (Permutation_Forall (Permutation_sym (insert_desc_permutation r l))).
      constructor; [unfold later_or_equal; lia|exact Hall].
Qed.

Lemma sort_desc_sorted l : StronglySorted later_or_equal (sort_desc l).
Proof.
  induction l as [|x l IH]; cbn; [constructor|].
  now apply insert_desc_sorted.
Qed.

Lemma sqlite_limit_count n rows :
  0 <= n -> sqlite_limit n rows = firstn (Z.to_nat n) rows.
Proof.
  intros H. unfold sqlite_limit.
  destruct (Z.ltb_spec n 0); [lia|reflexivity].
Qed.

Section Query.

Variable order_by_timestamp_desc : list SensorReading.t -> list SensorReading.t.
Variable sql_limit : Z -> list SensorReading.t -> list SensorReading.t.

Hypothesis order_by_permutation :
  forall rows, Permutation (order_by_timestamp_desc rows) rows.
Hypothesis order_by_sorted :
  forall rows, StronglySorted later_or_equal (order_by_timestamp_desc rows).
Hypothesis sql_limit_count :
  forall n rows, 0 <= n -> sql_limit n rows = firstn (Z.to_nat n) rows.

Lemma get_sensor_readings_selected d sensor_id limit start_time end_time :
  get_sensor_readings order_by_timestamp_desc sql_limit d sensor_id limit
    start_time end_time
  = sql_limit limit
      (order_by_timestamp_desc
         (filter (selected sensor_id start_time end_time) (sensor_readings d))).
Proof.
  unfold get_sensor_readings, selected.
  destruct start_time as [t1|], end_time as [t2|]; rewrite ?filter_filter;
    do 2 f_equal; apply filter_ext; intros r;
    rewrite ?andb_true_r, ?andb_assoc; reflexivity.
Qed.

(** C9.  For a limit [n >= 0] the endpoint returns [min n m] rows, [m]
    being the number of rows of the sensor inside the time window: at most
    [n], and exactly [n] when more exist.  The rows returned are latest
    first, each is a row of the sensor inside the window, and no row left
    out is later than a row returned. *)
Theorem get_sensor_readings_latest_first
    d sensor_id limit start_time end_time :
  0 <= limit ->
  let result :=
    get_sensor_readings order_by_timestamp_desc sql_limit d sensor_id limit
      start_time end_time in
  let matching :=
    filter (selected sensor_id start_time end_time) (sensor_readings d) in
  List.length result = Nat.min (Z.to_nat limit) (List.length matching)
  /\ StronglySorted later_or_equal result
  /\ (exists rest,
        Permutation (result ++ rest) matching
        /\ forall x y, In x result -> In y rest -> later_or_equal x y)
  /\ (forall r,
        In r result ->
        In r (sensor_readings d)
        /\ selected sensor_id start_time end_time r = true).
Proof.
  intros Hlimit result matching. subst result.
  rewrite get_sensor_readings_selected. fold matching.
  rewrite (sql_limit_count _ _ Hlimit).
  set (n := Z.to_nat limit).
  pose proof (order_by_sorted matching) as Hsorted.
  pose proof (order_by_permutation matching) as Hperm.
  rewrite <- (firstn_skipn n (order_by_timestamp_desc matching)) in Hsorted.
  apply strongly_sorted_app_inv in Hsorted. destruct Hsorted as [Hs Hcross].
  split; [|split; [exact Hs|split]].
  - rewrite length_firstn, (Permutation_length Hperm). reflexivity.
  - exists (skipn n (order_by_timestamp_desc matching)).
    rewrite firstn_skipn. split; [exact Hperm|exact Hcross].
  - intros r Hr.
    assert (Hin : In r (order_by_timestamp_desc matching))
      by (rewrite <- (firstn_skipn n _); apply in_or_app; now left).
    apply (Permutation_in _ Hperm) in Hin.
    subst matching. apply filter_In in Hin. exact Hin.
Qed.

End Query.

(** ** What a call leaves behind *)

Lemma ltb_not_nan (a b : float) :
  PrimFloat.ltb a b = true ->
  PrimFloat.is_nan a = false /\ PrimFloat.is_nan b = false.
Proof.
  unfold PrimFloat.is_nan. rewrite ltb_spec, !eqb_spec. unfold SFltb, SFeqb.
  destruct (Prim2SF a) as [sa|sa| |sa ma ea], (Prim2SF b) as [sb|sb| |sb mb eb];
    cbn; try discriminate; intros _;
    rewrite ?Z.compare_refl, ?Pos.compare_cont_refl;
    try destruct sa; try destruct sb; split; reflexivity.
Qed.

Lemma app_eq_self {A} (l l' : list A) : l = l ++ l' -> l' = [].
Proof.
  intros H. apply (f_equal (@List.length A)) in H.
  rewrite length_app in H. destruct l'; [reflexivity|cbn in H; lia].
Qed.

Lemma registered_grows sensor_id d d' new :
  sensors d' = sensors d ++ new ->
  registered sensor_id d <> None -> registered sensor_id d' <> None.
Proof.
  unfold registered. intros -> H.
  destruct (find _ (sensors d)) as [x|] eqn:Hx; [|contradiction].
  rewrite (find_app_some _ _ new _ Hx). discriminate.
Qed.

Section Effects.

Variable str_of_float : float -> string.

(** Either the reading reaches the table, or the storing error is printed:
    the three ways a call can end. *)
Lemma process_ends e settings sensor_data s :
  let s' := run (process_sensor_data str_of_float e settings sensor_data) s in
  (sensor_readings (store s')
   = sensor_readings (store s) ++ [new_reading e sensor_data]
   /\ registered (SD.sensor_id sensor_data) (store s') <> None
   /\ (stdout s' = stdout s
       \/ exists ex,
            stdout s'
            = stdout s ++ [("Error checking alert conditions: " ++ ex)%string]))
  \/ (sensor_readings (store s') = sensor_readings (store s)
      /\ alerts (store s') = alerts (store s)
      /\ exists ex,
           stdout s'
           = stdout s ++ [("Error storing sensor data: " ++ ex)%string]).
Proof.
  unfold_process.
  repeat (break_match; cbn);
    try (right; repeat split; eexists; reflexivity).
  all: left; split; [reflexivity|split]; eauto.
  all: try match goal with
       | H : find ?f ?l = Some _ |- find ?f ?l <> None => rewrite H; discriminate
       | H : find ?f ?l = None |- find ?f (?l ++ _) <> None =>
           rewrite (find_app_none f l _ H); cbn;
           rewrite String.eqb_refl; discriminate
       end.
Qed.

Lemma candidate_beyond_threshold settings sensor_data threshold message :
  alert_candidate str_of_float settings sensor_data = Some (threshold, message) ->
  (PrimFloat.ltb (SD.value sensor_data) threshold
   || PrimFloat.ltb threshold (SD.value sensor_data)) = true
  /\ configured_bound settings threshold.
Proof.
  unfold alert_candidate, configured_bound.
  repeat match goal with
         | |- context [if ?b then _ else _] => destruct b eqn:?
         end;
    intros [= <- <-] || discriminate;
    match goal with
    | H : PrimFloat.ltb _ _ = true |- _ => rewrite H
    end;
    rewrite ?orb_true_r; auto 6.
Qed.

(** The sensor table grows by what the registry step adds, the reading
    table by at most the call's reading, the alert table by at most one
    alert and only together with the reading. *)
Lemma process_grows e settings sensor_data s :
  let s' := run (process_sensor_data str_of_float e settings sensor_data) s in
  exists new_sensors new_readings new_alerts lines,
    sensors (store s') = sensors (store s) ++ new_sensors
    /\ sensor_readings (store s') = sensor_readings (store s) ++ new_readings
    /\ alerts (store s') = alerts (store s) ++ new_alerts
    /\ stdout s' = stdout s ++ lines
    /\ (List.length new_sensors <= 1)%nat
    /\ (List.length new_alerts <= List.length new_readings)%nat
    /\ (List.length new_readings <= 1)%nat
    /\ (List.length lines <= 1)%nat.
Proof.
  intros s'. subst s'.
  destruct (process_sensors str_of_float e settings sensor_data s)
    as [Hs|[_ Hs]];
    [exists []|exists [new_sensor sensor_data]].
  all: destruct (process_alerts str_of_float e settings sensor_data s)
    as [Ha|(thr & msg & flag & _ & _ & Ha & _ & Hr)].
  all: try (exists [new_reading e sensor_data],
              [new_alert e sensor_data thr msg flag]).
  all: try (destruct (process_readings str_of_float e settings sensor_data s)
              as [Hr|Hr];
            [exists []|exists [new_reading e sensor_data]]; exists []).
  all: destruct (process_ends e settings sensor_data s)
    as [(_ & _ & [Ho|[ex Ho]])|(_ & _ & ex & Ho)];
    [exists []|eexists [_]|eexists [_]].
  all: rewrite ?app_nil_r; cbn; repeat split; try eassumption; lia.
Qed.

(** X1.  A call of [process_sensor_data] never raises and leaves no session
    open.  It ends in one of two ways: its reading is in the table and at
    most an alert-check error was printed, or the reading and alert tables
    are as before and one storing error was printed.  When no statement
    raises it prints nothing. *)
Theorem each_call_stores_or_reports e settings sensor_data s :
  let s' := run (process_sensor_data str_of_float e settings sensor_data) s in
  outcome (process_sensor_data str_of_float e settings sensor_data) s = inr tt
  /\ session s' = []
  /\ ((sensor_readings (store s')
       = sensor_readings (store s) ++ [new_reading e sensor_data]
       /\ (stdout s' = stdout s
           \/ exists ex,
                stdout s'
                = stdout s
                  ++ [("Error checking alert conditions: " ++ ex)%string]))
      \/ (sensor_readings (store s') = sensor_readings (store s)
          /\ alerts (store s') = alerts (store s)
          /\ exists ex,
               stdout s'
               = stdout s ++ [("Error storing sensor data: " ++ ex)%string]))
  /\ (no_fault e -> stdout s' = stdout s).
Proof.
  intros s'. subst s'.
  split; [apply process_returns|].
  split; [apply process_closes_session|].
  split.
  - destruct (process_ends e settings sensor_data s)
      as [(Hr & _ & Ho)|H]; [left; split; assumption|right; exact H].
  - intros Hnf. rewrite (process_no_fault str_of_float e settings sensor_data s Hnf).
    reflexivity.
Qed.

(** X2.  Along any run of calls, whatever raises, the three tables and the
    output only grow at their end: no row is removed or rewritten.  A run
    of [n] calls adds at most [n] sensors, at most [n] readings, at most
    [n] lines, and no more alerts than readings. *)
Theorem tables_only_grow settings calls : forall s,
  let s' := ingest_all str_of_float settings calls s in
  exists new_sensors new_readings new_alerts lines,
    sensors (store s') = sensors (store s) ++ new_sensors
    /\ sensor_readings (store s') = sensor_readings (store s) ++ new_readings
    /\ alerts (store s') = alerts (store s) ++ new_alerts
    /\ stdout s' = stdout s ++ lines
    /\ (List.length new_sensors <= List.length calls)%nat
    /\ (List.length new_alerts <= List.length new_readings)%nat
    /\ (List.length new_readings <= List.length calls)%nat
    /\ (List.length lines <= List.length calls)%nat.
Proof.
  induction calls as [|[e sd] calls IH]; intros s; cbn [ingest_all].
  - exists [], [], [], []. rewrite !app_nil_r. cbn. repeat split; lia.
  - destruct (process_grows e settings sd s)
      as (ns1 & nr1 & na1 & l1 & Hs1 & Hr1 & Ha1 & Ho1 & B1 & B2 & B3 & B4).
    destruct (IH (run (process_sensor_data str_of_float e settings sd) s))
      as (ns2 & nr2 & na2 & l2 & Hs2 & Hr2 & Ha2 & Ho2 & C1 & C2 & C3 & C4).
    exists (ns1 ++ ns2), (nr1 ++ nr2), (na1 ++ na2), (l1 ++ l2).
    cbn zeta. rewrite Hs2, Hr2, Ha2, Ho2, Hs1, Hr1, Ha1, Ho1.
    rewrite <- !app_assoc, !length_app. cbn [List.length].
    repeat split; lia.
Qed.

Lemma process_keeps_names_registered e settings sensor_data s :
  names_registered (store s) ->
  names_registered
    (store (run (process_sensor_data str_of_float e settings sensor_data) s)).
Proof.
  intros [Hr Ha].
  destruct (process_grows e settings sensor_data s)
    as (ns & _ & _ & _ & Hs & _).
  assert (Hkeep : forall sid, registered sid (store s) <> None ->
            registered sid
              (store (run (process_sensor_data str_of_float e settings
                             sensor_data) s)) <> None).
  { intros sid. apply (registered_grows sid _ _ ns Hs). }
  destruct (process_ends e settings sensor_data s)
    as [(Hr' & Hreg & _)|(Hr' & Ha' & _)].
  - split.
    + rewrite Hr'. apply Forall_app. split.
      * eapply Forall_impl; [|exact Hr]. intros r. apply Hkeep.
      * constructor; [exact Hreg|constructor].
    + destruct (process_alerts str_of_float e settings sensor_data s)
        as [->|(thr & msg & flag & _ & _ & -> & _)].
      * eapply Forall_impl; [|exact Ha]. intros a. apply Hkeep.
      * apply Forall_app. split.
        -- eapply Forall_impl; [|exact Ha]. intros a. apply Hkeep.
        -- constructor; [exact Hreg|constructor].
  - split.
    + rewrite Hr'. eapply Forall_impl; [|exact Hr]. intros r. apply Hkeep.
    + rewrite Ha'. eapply Forall_impl; [|exact Ha]. intros a. apply Hkeep.
Qed.

(** X3.  Along any run of calls, whatever raises, every reading and every
    alert names a registered sensor, given that this holds at the start:
    the code keeps the foreign keys that the tables declare. *)
Theorem foreign_keys_hold settings calls : forall s,
  names_registered (store s) ->
  names_registered (store (ingest_all str_of_float settings calls s)).
Proof.
  induction calls as [|[e sd] calls IH]; intros s Hs; cbn [ingest_all];
    [exact Hs|].
  apply IH. now apply process_keeps_names_registered.
Qed.

Lemma process_keeps_alerts_justified e settings sensor_data s :
  alerts_justified settings (store s) ->
  alerts_justified settings
    (store (run (process_sensor_data str_of_float e settings sensor_data) s)).
Proof.
  intros H. unfold alerts_justified in *.
  destruct (process_grows e settings sensor_data s)
    as (_ & nr & _ & _ & _ & Hr & _).
  assert (Hold : Forall
            (fun a => beyond_threshold a = true
                      /\ configured_bound settings (Alert.threshold a)
                      /\ backed_by_reading
                           (store (run (process_sensor_data str_of_float e
                                          settings sensor_data) s)) a)
            (alerts (store s))).
  { eapply Forall_impl; [|exact H].
    intros a (Hb & Hc & r & Hin & Hid & Hv). repeat split; try assumption.
    exists r. rewrite Hr. split; [apply in_or_app; now left|now split]. }
  destruct (process_alerts str_of_float e settings sensor_data s)
    as [->|(thr & msg & flag & Hcand & _ & -> & _ & Hr')]; [exact Hold|].
  apply Forall_app. split; [exact Hold|].
  constructor; [|constructor].
  destruct (candidate_beyond_threshold settings sensor_data thr msg Hcand)
    as [Hb Hc].
  split; [exact Hb|]. split; [exact Hc|].
  exists (new_reading e sensor_data). rewrite Hr'.
  split; [apply in_or_app; right; now left|split; reflexivity].
Qed.

(** X4.  Along any run of calls under fixed settings, whatever raises, every
    alert in the table has a value strictly below or strictly above the
    threshold stored with it, that threshold is one of the four configured
    bounds, and the reading table holds a reading of the same sensor and
    value, given that this holds at the start.  In particular no alert
    carries a NaN value. *)
Theorem alerts_stay_justified settings calls : forall s,
  alerts_justified settings (store s) ->
  alerts_justified settings
    (store (ingest_all str_of_float settings calls s))
  /\ Forall (fun a => PrimFloat.is_nan (Alert.value a) = false)
       (alerts (store (ingest_all str_of_float settings calls s))).
Proof.
  assert (Hinv : forall s,
            alerts_justified settings (store s) ->
            alerts_justified settings
              (store (ingest_all str_of_float settings calls s))).
  { induction calls as [|[e sd] calls IH]; intros s Hs; cbn [ingest_all];
      [exact Hs|].
    apply IH. now apply process_keeps_alerts_justified. }
  intros s Hs. split; [now apply Hinv|].
  eapply Forall_impl; [|exact (Hinv s Hs)].
  intros a (Hb & _). unfold beyond_threshold in Hb.
  apply orb_true_iff in Hb. destruct Hb as [Hb|Hb];
    apply ltb_not_nan in Hb; tauto.
Qed.

(** X5.  A run of calls in which no statement raises appends exactly the
    readings of its calls, in their order, whatever their values. *)
Theorem fault_free_run_appends_its_readings settings calls : forall s,
  Forall (fun c => no_fault (fst c)) calls ->
  sensor_readings (store (ingest_all str_of_float settings calls s))
  = sensor_readings (store s)
    ++ map (fun c => new_reading (fst c) (snd c)) calls.
Proof.
  induction calls as [|[e sd] calls IH]; intros s H; cbn [ingest_all map].
  - now rewrite app_nil_r.
  - inversion H as [|c cs Hc Hcs]; subst. cbn [fst] in Hc.
    rewrite (IH _ Hcs).
    rewrite (process_no_fault str_of_float e settings sd s Hc).
    cbn [store sensor_readings fst snd]. now rewrite <- app_assoc.
Qed.

(** X6.  The cooldown is per sensor: of two alert-worthy readings of two
    different sensors, neither in its own cooldown, both raise an alert,
    however close in time they are. *)
Theorem cooldown_is_per_sensor settings s e1 sd1 e2 sd2 thr1 msg1 thr2 msg2 :
  SD.sensor_id sd1 <> SD.sensor_id sd2 ->
  alert_candidate str_of_float settings sd1 = Some (thr1, msg1) ->
  alert_candidate str_of_float settings sd2 = Some (thr2, msg2) ->
  no_fault e1 -> no_fault e2 ->
  recent_alert e1 (SD.sensor_id sd1) (store s) = None ->
  recent_alert e2 (SD.sensor_id sd2) (store s) = None ->
  alerts (store (ingest_all str_of_float settings [(e1, sd1); (e2, sd2)] s))
  = alerts (store s)
    ++ [new_alert e1 sd1 thr1 msg1 1; new_alert e2 sd2 thr2 msg2 1].
Proof.
  intros Hne Hc1 Hc2 Hf1 Hf2 Hr1 Hr2. cbn [ingest_all].
  rewrite (process_no_fault str_of_float e1 settings sd1 s Hf1), Hc1, Hr1.
  rewrite (process_no_fault str_of_float e2 settings sd2 _ Hf2), Hc2.
  cbn [store alerts].
  assert (Hr2' : recent_alert e2 (SD.sensor_id sd2)
                   (Database (sensors_resolved sd1 (store s))
                      (sensor_readings (store s) ++ [new_reading e1 sd1])
                      (alerts (store s) ++ [new_alert e1 sd1 thr1 msg1 1]))
                 = None).
  { unfold recent_alert in *. cbn [alerts].
    rewrite (find_app_none _ _ _ Hr2). cbn. unfold is_recent. cbn.
    destruct (String.eqb_spec (SD.sensor_id sd1) (SD.sensor_id sd2));
      [contradiction|reflexivity]. }
  rewrite Hr2'. now rewrite <- app_assoc.
Qed.

End Effects.

(** ** The alert endpoint *)

(** In a list sorted latest first, an element strictly later than all
    others stands first. *)
Lemma strictly_latest_is_first {A} (R : A -> A -> Prop) (x : A)
    (l sorted : list A) :
  StronglySorted R sorted ->
  Permutation sorted (x :: l) ->
  (forall y, In y l -> ~ R y x) ->
  exists rest, sorted = x :: rest.
Proof.
  intros Hs Hp Hx.
  destruct sorted as [|h rest].
  - apply Permutation_length in Hp. discriminate Hp.
  - assert (Hh : In h (x :: l))
      by (apply (Permutation_in _ Hp); now left).
    destruct Hh as [<-|Hh]; [now exists rest|].
    assert (Hxin : In x (h :: rest))
      by (apply (Permutation_in _ (Permutation_sym Hp)); now left).
    destruct Hxin as [->|Hxin]; [now exists rest|].
    inversion Hs as [|? ? _ Hall]; subst.
    rewrite Forall_forall in Hall. elim (Hx h Hh). now apply Hall.
Qed.

Lemma insert_alert_desc_permutation a l :
  Permutation (insert_alert_desc a l) (a :: l).
Proof.
  induction l as [|x l IH]; cbn; [reflexivity|].
  destruct (Alert.timestamp x <=? Alert.timestamp a); [reflexivity|].
  rewrite IH. apply perm_swap.
Qed.

Lemma sort_alerts_desc_permutation l : Permutation (sort_alerts_desc l) l.
Proof.
  induction l as [|x l IH]; cbn; [reflexivity|].
  rewrite insert_alert_desc_permutation. now constructor.
Qed.

Lemma insert_alert_desc_sorted a l :
  StronglySorted alert_later_or_equal l ->
  StronglySorted alert_later_or_equal (insert_alert_desc a l).
Proof.
  induction l as [|x l IH]; cbn; intros H.
  - repeat constructor.
  - inversion H as [|y l' Hs Hall]; subst.
    destruct (Z.leb_spec (Alert.timestamp x) (Alert.timestamp a)) as [Hle|Hlt].
    + constructor; [exact H|].
      constructor; [exact Hle|].
      eapply Forall_impl; [|exact Hall].
      unfold alert_later_or_equal. cbn. intros b Hb. lia.
    + constructor; [exact (IH Hs)|].
      apply (Permutation_Forall
               (Permutation_sym (insert_alert_desc_permutation a l))).
      constructor; [unfold alert_later_or_equal; lia|exact Hall].
Qed.

Lemma sort_alerts_desc_sorted l :
  StronglySorted alert_later_or_equal (sort_alerts_desc l).
Proof.
  induction l as [|x l IH]; cbn; [constructor|].
  now apply insert_alert_desc_sorted.
Qed.

Lemma sqlite_limit_alerts_count n rows :
  0 <= n -> sqlite_limit_alerts n rows = firstn (Z.to_nat n) rows.
Proof.
  intros H. unfold sqlite_limit_alerts.
  destruct (Z.ltb_spec n 0); [lia|reflexivity].
Qed.

Section AlertQuery.

Variable order_by_timestamp_desc : list Alert.t -> list Alert.t.
Variable sql_limit : Z -> list Alert.t -> list Alert.t.

Hypothesis order_by_permutation :
  forall rows, Permutation (order_by_timestamp_desc rows) rows.
Hypothesis order_by_sorted :
  forall rows,
    StronglySorted alert_later_or_equal (order_by_timestamp_desc rows).
Hypothesis sql_limit_count :
  forall n rows, 0 <= n -> sql_limit n rows = firstn (Z.to_nat n) rows.

(** X7.  For a limit [n >= 0], when [get_alerts] returns it returns
    [min n m] alerts, [m] being the number of alerts stamped at or after
    [now - hours]: latest first, each of them inside that window, and no
    alert of the window left out is later than one returned.  It does
    return when the window starts inside the calendar: [hours] of at most
    999999999 days in size and [now - hours] a date of the years 1 to
    9999. *)
Theorem get_alerts_latest_first now d limit hours :
  0 <= limit ->
  let window a := (now - hours * 3600 * 1000000 <=? Alert.timestamp a) in
  (forall result,
     get_alerts order_by_timestamp_desc sql_limit now d limit hours
     = inr result ->
     List.length result
     = Nat.min (Z.to_nat limit) (List.length (filter window (alerts d)))
     /\ StronglySorted alert_later_or_equal result
     /\ (exists rest,
           Permutation (result ++ rest) (filter window (alerts d))
           /\ forall x y, In x result -> In y rest -> alert_later_or_equal x y)
     /\ (forall a, In a result -> In a (alerts d) /\ window a = true))
  /\ (-999999999 <= hours / 24 <= 999999999 ->
      0 <= now - hours * 3600 * 1000000 <= datetime_max ->
      exists result,
        get_alerts order_by_timestamp_desc sql_limit now d limit hours
        = inr result).
Proof.
  intros Hlimit window. split.
  - intros result. unfold get_alerts, timedelta_hours, datetime_sub.
    cbn zeta.
    destruct ((-999999999 <=? hours / 24) && (hours / 24 <=? 999999999));
      [|discriminate].
    destruct ((0 <=? now - hours * 3600 * 1000000)
              && (now - hours * 3600 * 1000000 <=? datetime_max));
      [|discriminate].
    intros [= <-]. fold window.
    set (matching := filter window (alerts d)).
    rewrite (sql_limit_count _ _ Hlimit).
    set (n := Z.to_nat limit).
    pose proof (order_by_sorted matching) as Hsorted.
    pose proof (order_by_permutation matching) as Hperm.
    rewrite <- (firstn_skipn n (order_by_timestamp_desc matching)) in Hsorted.
    apply strongly_sorted_app_inv in Hsorted. destruct Hsorted as [Hs Hcross].
    split; [|split; [exact Hs|split]].
    + rewrite length_firstn, (Permutation_length Hperm). reflexivity.
    + exists (skipn n (order_by_timestamp_desc matching)).
      rewrite firstn_skipn. split; [exact Hperm|exact Hcross].
    + intros a Ha.
      assert (Hin : In a (order_by_timestamp_desc matching))
        by (rewrite <- (firstn_skipn n _); apply in_or_app; now left).
      apply (Permutation_in _ Hperm) in Hin.
      subst matching. apply filter_In in Hin. exact Hin.
  - intros [H1 H2] [H3 H4]. unfold get_alerts, timedelta_hours, datetime_sub.
    cbn zeta.
    rewrite (proj2 (Z.leb_le _ _) H1), (proj2 (Z.leb_le _ _) H2).
    cbn [andb].
    rewrite (proj2 (Z.leb_le _ _) H3), (proj2 (Z.leb_le _ _) H4).
    cbn [andb]. eexists. reflexivity.
Qed.

(** X8.  The edges of [get_alerts].  A number of hours beyond 999999999
    days either way, or one that puts the start of the window before the
    year 1 or after the year 9999, makes the endpoint raise instead of
    answering.  With [hours <= 0] and no alert stamped at or after [now],
    the answer is empty.  A longer window selects every alert that a
    shorter one selects. *)
Theorem get_alerts_edges now d limit hours :
  (~ (-999999999 <= hours / 24 <= 999999999) ->
   exists ex,
     get_alerts order_by_timestamp_desc sql_limit now d limit hours = inl ex)
  /\ (~ (0 <= now - hours * 3600 * 1000000 <= datetime_max) ->
      exists ex,
        get_alerts order_by_timestamp_desc sql_limit now d limit hours = inl ex)
  /\ (hours <= 0 -> 0 <= limit ->
      Forall (fun a => Alert.timestamp a < now) (alerts d) ->
      forall result,
        get_alerts order_by_timestamp_desc sql_limit now d limit hours
        = inr result ->
        result = [])
  /\ (forall more a,
        hours <= more ->
        (now - hours * 3600 * 1000000 <=? Alert.timestamp a) = true ->
        (now - more * 3600 * 1000000 <=? Alert.timestamp a) = true).
Proof.
  split; [|split; [|split]].
  - intros H. unfold get_alerts, timedelta_hours. cbn zeta.
    destruct ((-999999999 <=? hours / 24) && (hours / 24 <=? 999999999)) eqn:E.
    + apply andb_true_iff in E. destruct E as [E1 E2].
      apply Z.leb_le in E1, E2. elim H. lia.
    + eexists. reflexivity.
  - intros H. unfold get_alerts, timedelta_hours, datetime_sub. cbn zeta.
    destruct ((-999999999 <=? hours / 24) && (hours / 24 <=? 999999999));
      [|eexists; reflexivity].
    destruct ((0 <=? now - hours * 3600 * 1000000)
              && (now - hours * 3600 * 1000000 <=? datetime_max)) eqn:E.
    + apply andb_true_iff in E. destruct E as [E1 E2].
      apply Z.leb_le in E1, E2. elim H. lia.
    + eexists. reflexivity.
  - intros Hh Hlimit Hold result.
    unfold get_alerts, timedelta_hours, datetime_sub. cbn zeta.
    destruct ((-999999999 <=? hours / 24) && (hours / 24 <=? 999999999));
      [|discriminate].
    destruct ((0 <=? now - hours * 3600 * 1000000)
              && (now - hours * 3600 * 1000000 <=? datetime_max));
      [|discriminate].
    intros [= <-].
    assert (Hnone : filter (fun a => now - hours * 3600 * 1000000
                                     <=? Alert.timestamp a) (alerts d) = []).
    { induction Hold as [|a l Ha _ IH]; cbn; [reflexivity|].
      destruct (Z.leb_spec (now - hours * 3600 * 1000000) (Alert.timestamp a));
        [lia|exact IH]. }
    rewrite Hnone.
    pose proof (order_by_permutation []) as Hp.
    apply Permutation_sym, Permutation_nil in Hp. rewrite Hp.
    rewrite (sql_limit_count _ _ Hlimit). apply firstn_nil.
  - intros more a Hmore Ha. apply Z.leb_le in Ha. apply Z.leb_le. lia.
Qed.

End AlertQuery.

(** ** Reading back what was written *)

Section ReadBack.

Variable str_of_float : float -> string.
Variable order_readings : list SensorReading.t -> list SensorReading.t.
Variable limit_readings : Z -> list SensorReading.t -> list SensorReading.t.
Variable order_alerts : list Alert.t -> list Alert.t.
Variable limit_alerts : Z -> list Alert.t -> list Alert.t.

Hypothesis order_readings_permutation :
  forall rows, Permutation (order_readings rows) rows.
Hypothesis order_readings_sorted :
  forall rows, StronglySorted later_or_equal (order_readings rows).
Hypothesis limit_readings_count :
  forall n rows, 0 <= n -> limit_readings n rows = firstn (Z.to_nat n) rows.
Hypothesis order_alerts_permutation :
  forall rows, Permutation (order_alerts rows) rows.
Hypothesis order_alerts_sorted :
  forall rows, StronglySorted alert_later_or_equal (order_alerts rows).
Hypothesis limit_alerts_count :
  forall n rows, 0 <= n -> limit_alerts n rows = firstn (Z.to_nat n) rows.

Lemma firstn_cons_pos {A} (n : Z) (x : A) (l : list A) :
  1 <= n -> firstn (Z.to_nat n) (x :: l) = x :: firstn (Z.to_nat (n - 1)) l.
Proof.
  intros H. replace (Z.to_nat n) with (S (Z.to_nat (n - 1))) by lia.
  reflexivity.
Qed.

(** X9.  A reading stored by a call in which nothing raises, stamped later
    than every stored reading of its sensor, is the first row that
    [get_sensor_readings] returns for the sensor, for any limit of at least
    1 and any time window that holds the reading's timestamp. *)
Theorem latest_reading_is_read_first
    e settings sensor_data s limit start_time end_time :
  no_fault e ->
  1 <= limit ->
  selected (SD.sensor_id sensor_data) start_time end_time
    (new_reading e sensor_data) = true ->
  Forall (fun r => SensorReading.sensor_id r = SD.sensor_id sensor_data ->
                   SensorReading.timestamp r
                   < SensorReading.timestamp (new_reading e sensor_data))
    (sensor_readings (store s)) ->
  exists rest,
    get_sensor_readings order_readings limit_readings
      (store (run (process_sensor_data str_of_float e settings sensor_data) s))
      (SD.sensor_id sensor_data) limit start_time end_time
    = new_reading e sensor_data :: rest.
Proof.
  intros Hnf Hlimit Hsel Hold.
  rewrite get_sensor_readings_selected.
  rewrite (process_no_fault str_of_float e settings sensor_data s Hnf).
  cbn [store sensor_readings].
  rewrite filter_app. cbn [filter]. rewrite Hsel.
  set (old := filter (selected (SD.sensor_id sensor_data) start_time end_time)
                (sensor_readings (store s))).
  destruct (strictly_latest_is_first later_or_equal
              (new_reading e sensor_data) old
              (order_readings (old ++ [new_reading e sensor_data])))
    as [rest Hrest].
  - apply order_readings_sorted.
  - rewrite order_readings_permutation.
    apply Permutation_sym, Permutation_cons_append.
  - intros y Hy. subst old. apply filter_In in Hy. destruct Hy as [Hin Hy].
    rewrite Forall_forall in Hold. specialize (Hold y Hin).
    unfold selected in Hy. apply andb_true_iff in Hy. destruct Hy as [Hy _].
    apply andb_true_iff in Hy. destruct Hy as [Hy _].
    apply String.eqb_eq in Hy. specialize (Hold Hy).
    unfold later_or_equal. lia.
  - rewrite Hrest, limit_readings_count by lia.
    rewrite firstn_cons_pos by assumption. eexists. reflexivity.
Qed.


(** X11.  The edges of [get_sensor_readings]: a window whose start lies
    after its end selects nothing, and so does a limit of 0; the bounds of
    the window are inclusive. *)
Theorem get_sensor_readings_edges d sensor_id limit start_time end_time :
  (forall t1 t2,
     start_time = Some t1 -> end_time = Some t2 -> t2 < t1 -> 0 <= limit ->
     get_sensor_readings order_readings limit_readings d sensor_id limit
       start_time end_time = [])
  /\ (limit = 0 ->
      get_sensor_readings order_readings limit_readings d sensor_id limit
        start_time end_time = [])
  /\ (forall r t1 t2,
        start_time = Some t1 -> end_time = Some t2 ->
        SensorReading.sensor_id r = sensor_id ->
        (SensorReading.timestamp r = t1 \/ SensorReading.timestamp r = t2) ->
        t1 <= t2 ->
        selected sensor_id start_time end_time r = true).
Proof.
  split; [|split].
  - intros t1 t2 -> -> Hlt Hlimit.
    rewrite get_sensor_readings_selected.
    assert (Hnone : filter (selected sensor_id (Some t1) (Some t2))
                      (sensor_readings d) = []).
    { induction (sensor_readings d) as [|r l IH]; cbn; [reflexivity|].
      replace (selected sensor_id (Some t1) (Some t2) r) with false; [exact IH|].
      unfold selected.
      destruct (Z.leb_spec t1 (SensorReading.timestamp r));
        destruct (Z.leb_spec (SensorReading.timestamp r) t2);
        rewrite ?andb_false_r; try reflexivity; lia. }
    rewrite Hnone.
    pose proof (order_readings_permutation []) as Hp.
    apply Permutation_sym, Permutation_nil in Hp. rewrite Hp.
    rewrite limit_readings_count by assumption. apply firstn_nil.
  - intros ->. rewrite get_sensor_readings_selected.
    rewrite limit_readings_count by lia. reflexivity.
  - intros r t1 t2 -> -> Hid Hts Hle. unfold selected.
    rewrite Hid, String.eqb_refl. cbn.
    apply andb_true_iff. split; apply Z.leb_le; lia.
Qed.

End ReadBack.

(** ** Identifiers built by the bus, read by the request path *)

Lemma split_not_nil sep s : split sep s <> [].
Proof.
  destruct s as [|c s]; cbn; [discriminate|].
  destruct (Ascii.eqb c sep); [discriminate|].
  destruct (split sep s); discriminate.
Qed.

Lemma split_app_sep sep a b :
  has_char sep a = false ->
  split sep (a ++ String sep b) = a :: split sep b.
Proof.
  induction a as [|c a IH]; cbn; intros H.
  - rewrite Ascii.eqb_refl. reflexivity.
  - apply orb_false_iff in H. destruct H as [Hc Ha].
    rewrite Hc, (IH Ha). reflexivity.
Qed.

Lemma hd_split_has_no_sep sep s :
  has_char sep (hd EmptyString (split sep s)) = false.
Proof.
  induction s as [|c s IH]; cbn; [reflexivity|].
  destruct (Ascii.eqb c sep) eqn:E; [reflexivity|].
  destruct (split sep s) as [|w ws] eqn:Es.
  - cbn. now rewrite E.
  - cbn in IH |- *. now rewrite E, IH.
Qed.

Lemma append_cancel_l (a b c : string) :
  (a ++ b)%string = (a ++ c)%string -> b = c.
Proof.
  induction a as [|x a IH]; cbn; [auto|]. intros [= H]. auto.
Qed.

(** X12.  A sensor first seen on the bus gets the identifier
    [<type>_<location>].  For an identifier not yet registered the request
    path takes the text before the first underscore as the sensor type:
    this is the bus's type exactly when that type holds no underscore.  For
    such types the identifier also determines the type and the location. *)
Theorem bus_identifier_decodes e sensor_type location value unit data d :
  SensorData.sensor_id data
  = SD.sensor_id (mqtt_sensor_data e sensor_type location value unit) ->
  registered (SensorData.sensor_id data) d = None ->
  (SD.sensor_type (http_sensor_data e data d) = sensor_type
   <-> has_char "_" sensor_type = false)
  /\ (forall sensor_type' location',
        has_char "_" sensor_type = false ->
        has_char "_" sensor_type' = false ->
        SD.sensor_id (mqtt_sensor_data e sensor_type' location' value unit)
        = SensorData.sensor_id data ->
        sensor_type' = sensor_type /\ location' = location).
Proof.
  intros Hid Hnew. cbn [mqtt_sensor_data SD.sensor_id] in *.
  unfold http_sensor_data. rewrite Hnew. cbn [SD.sensor_type]. rewrite Hid.
  split.
  - split.
    + intros H. rewrite <- H. apply hd_split_has_no_sep.
    + intros H. cbn. rewrite (split_app_sep "_" _ _ H). reflexivity.
  - intros ty' loc' H H' Heq.
    assert (Hs : split "_" (ty' ++ "_" ++ loc') = split "_" (sensor_type ++ "_" ++ location))
      by now rewrite Heq.
    cbn in Hs. rewrite (split_app_sep "_" _ _ H), (split_app_sep "_" _ _ H') in Hs.
    injection Hs as -> _. split; [reflexivity|].
    apply append_cancel_l in Heq. now injection Heq.
Qed.

(** ** Start-up *)

(** X13.  Start-up survives an unreachable broker.  When [init_db()] does
    not raise, [startup_event] returns normally whatever the MQTT client
    does and touches no table: if an MQTT call raises, three lines are
    printed and [mqtt_client] stays unbound; if none does, nothing is
    printed and [mqtt_client] is bound.  When [init_db()] raises, the
    exception leaves [startup_event] and no MQTT call is made. *)
Theorem startup_survives_broker_failure b s :
  (init_db_raises b = None ->
   startup_event b s =
   match first_mqtt_error b with
   | None => (s, inr true)
   | Some ex =>
       (State (store s) (session s)
          (stdout s
           ++ [("Failed to connect to MQTT broker: " ++ ex)%string;
               ("Warning: Could not start MQTT client: " ++ ex)%string;
               "The application will continue without MQTT support."]),
        inr false)
   end)
  /\ (forall ex, init_db_raises b = Some ex -> startup_event b s = (s, inl ex)).
Proof.
  unfold startup_event, start_mqtt_client, init_db, first_mqtt_error,
    try_except, bind, external_call, print, raise, ret.
  split.
  - intros ->.
    destruct (mqtt_raises b NewClient); cbn;
      [rewrite <- !app_assoc; reflexivity|].
    destruct (mqtt_raises b Connect); cbn;
      [rewrite <- !app_assoc; reflexivity|].
    destruct (mqtt_raises b LoopStart); cbn;
      [rewrite <- !app_assoc; reflexivity|].
    destruct s; reflexivity.
  - intros ex ->. reflexivity.
Qed.

(** ** Grouping the sensors *)

Lemma group_of_append_to key sensor_id g k :
  group_of k (append_to key sensor_id g) =
  if String.eqb key k
  then Some (match group_of k g with Some ids => ids | None => [] end
             ++ [sensor_id])
  else group_of k g.
Proof.
  induction g as [|[k' ids] g IH]; cbn.
  - destruct (String.eqb key k); reflexivity.
  - destruct (String.eqb_spec k' key) as [->|Hne]; cbn.
    + destruct (String.eqb key k); reflexivity.
    + destruct (String.eqb_spec k' k) as [->|Hk].
      * rewrite (proj2 (String.eqb_neq _ _) (not_eq_sym Hne)). reflexivity.
      * exact IH.
Qed.

Lemma keys_append_to key sensor_id g :
  map fst (append_to key sensor_id g)
  = if existsb (String.eqb key) (map fst g) then map fst g
    else map fst g ++ [key].
Proof.
  induction g as [|[k ids] g IH]; cbn; [reflexivity|].
  rewrite (String.eqb_sym key k).
  destruct (String.eqb k key); cbn; [reflexivity|].
  rewrite IH. destruct (existsb (String.eqb key) (map fst g)); reflexivity.
Qed.

Lemma keys_append_to_nodup key sensor_id g :
  NoDup (map fst g) -> NoDup (map fst (append_to key sensor_id g)).
Proof.
  intros H. rewrite keys_append_to.
  destruct (existsb (String.eqb key) (map fst g)) eqn:E; [exact H|].
  apply NoDup_app; [exact H|repeat constructor; intros []|].
  intros k Hk [<-|[]].
  assert (existsb (String.eqb key) (map fst g) = true)
    by (apply existsb_exists; exists key; split;
        [exact Hk|apply String.eqb_refl]).
  congruence.
Qed.

(** The loop of the two grouping functions, for the field they read. *)
Lemma grouping_loop field sensors : forall g,
  let result :=
    fold_left
      (fun groups sensor =>
         if truthy (get_str field sensor) && truthy (get_str "sensor_id" sensor)
         then append_to (get_str field sensor) (get_str "sensor_id" sensor) groups
         else groups)
      sensors g in
  (forall key,
     group_of key result =
     match group_of key g, members field key sensors with
     | None, [] => None
     | None, ids => Some ids
     | Some old, ids => Some (old ++ ids)
     end)
  /\ (NoDup (map fst g) -> NoDup (map fst result)).
Proof.
  induction sensors as [|sensor sensors IH]; intros g; cbn [fold_left].
  - split; [|auto]. intros key. unfold members. cbn.
    destruct (group_of key g); [now rewrite app_nil_r|reflexivity].
  - cbn zeta in IH |- *.
    destruct (truthy (get_str field sensor)
              && truthy (get_str "sensor_id" sensor)) eqn:E.
    + destruct (IH (append_to (get_str field sensor)
                      (get_str "sensor_id" sensor) g)) as [Hg Hk].
      split; [|intros H; apply Hk; now apply keys_append_to_nodup].
      intros key. rewrite Hg, group_of_append_to. unfold members. cbn [filter].
      apply andb_true_iff in E. destruct E as [E1 E2]. rewrite E1, E2.
      rewrite !andb_true_r.
      destruct (String.eqb (get_str field sensor) key); cbn [map].
      * destruct (group_of key g); cbn; rewrite <- ?app_assoc; reflexivity.
      * reflexivity.
    + destruct (IH g) as [Hg Hk]. split; [|exact Hk].
      intros key. rewrite Hg. unfold members. cbn [filter].
      replace (String.eqb (get_str field sensor) key
               && truthy (get_str field sensor)
               && truthy (get_str "sensor_id" sensor)) with false;
        [reflexivity|].
      rewrite <- andb_assoc, E. now rewrite andb_false_r.
Qed.

(** X14.  [group_sensors_by_type] and [group_sensors_by_location] list,
    under each type (location), the identifiers of the sensors of that type
    (location) in the order of the input; a sensor with an empty or missing
    type (location) or identifier is left out; a key is present only with a
    non-empty list, and no key occurs twice. *)
Theorem grouping_lists_members_in_order sensors key :
  group_of key (group_sensors_by_type sensors)
  = match members "sensor_type" key sensors with
    | [] => None
    | ids => Some ids
    end
  /\ group_of key (group_sensors_by_location sensors)
     = match members "location" key sensors with
       | [] => None
       | ids => Some ids
       end
  /\ NoDup (map fst (group_sensors_by_type sensors))
  /\ NoDup (map fst (group_sensors_by_location sensors)).
Proof.
  unfold group_sensors_by_type, group_sensors_by_location.
  destruct sensors as [|sensor sensors];
    [repeat split; constructor|].
  destruct (grouping_loop "sensor_type" (sensor :: sensors) []) as [Ht Kt].
  destruct (grouping_loop "location" (sensor :: sensors) []) as [Hl Kl].
  cbn zeta in Ht, Hl, Kt, Kl.
  repeat split.
  - rewrite Ht. reflexivity.
  - rewrite Hl. reflexivity.
  - apply Kt. constructor.
  - apply Kl. constructor.
Qed.

(** ** The two transports and the invariants *)

Section TransportEffects.

Variable str_of_float : float -> string.
Variable float_of_str : string -> option float.

(** X15.  Whatever arrives on either transport and whatever raises, a bus
    message and a request keep what the pipeline keeps: every reading and
    every alert names a registered sensor, and every alert has a value
    strictly beyond one of the configured bounds, stored with it, and a
    reading of the same sensor and value behind it. *)
Theorem transports_keep_the_invariants e settings s :
  names_registered (store s) ->
  alerts_justified settings (store s) ->
  (forall msg,
     let s' := run (on_message str_of_float float_of_str e settings msg) s in
     names_registered (store s') /\ alerts_justified settings (store s'))
  /\ (forall data,
        let s' := run (post_sensor_data str_of_float e settings data) s in
        names_registered (store s') /\ alerts_justified settings (store s')).
Proof.
  intros Hn Ha. split.
  - intros msg s'. subst s'. unfold run.
    rewrite on_message_decode.
    destruct (mqtt_decode float_of_str e msg) as [ex|[sensor_data|]];
      [split; assumption| |split; assumption].
    split.
    + apply (process_keeps_names_registered str_of_float e settings
               sensor_data s Hn).
    + apply (process_keeps_alerts_justified str_of_float e settings
               sensor_data s Ha).
  - intros data s'. subst s'. unfold run.
    destruct (fault e EndpointQuerySensor) as [ex|] eqn:Hq.
    + unfold post_sensor_data, add_sensor_data, bind, query_sensor.
      rewrite Hq. split; assumption.
    + rewrite (post_sensor_data_process str_of_float e settings data s Hq).
      split.
      * apply (process_keeps_names_registered str_of_float e settings _ s Hn).
      * apply (process_keeps_alerts_justified str_of_float e settings _ s Ha).
Qed.

(** X16.  The one error that a request lets through is that of the
    endpoint's own registry query: when it raises, the exception leaves the
    endpoint, no task is scheduled and nothing is stored or printed.  When
    it does not, the request completes and leaves no session open, whatever
    raises in the task. *)
Theorem request_fails_only_on_endpoint_query e settings data s :
  (forall ex,
     fault e EndpointQuerySensor = Some ex ->
     outcome (add_sensor_data e data) s = inl ex
     /\ post_sensor_data str_of_float e settings data s = (s, inl ex))
  /\ (fault e EndpointQuerySensor = None ->
      outcome (add_sensor_data e data) s
      = inr (http_sensor_data e data (store s))
      /\ run (add_sensor_data e data) s = s
      /\ outcome (post_sensor_data str_of_float e settings data) s = inr tt
      /\ session (run (post_sensor_data str_of_float e settings data) s) = []).
Proof.
  split.
  - intros ex Hq.
    unfold outcome, post_sensor_data, add_sensor_data, bind, query_sensor.
    rewrite Hq. split; reflexivity.
  - intros Hq. split; [|split; [|split]].
    + unfold outcome, add_sensor_data, bind, query_sensor, ret,
        http_sensor_data, registered.
      rewrite Hq. reflexivity.
    + unfold run, add_sensor_data, bind, query_sensor, ret.
      rewrite Hq. reflexivity.
    + unfold outcome.
      rewrite (post_sensor_data_process str_of_float e settings data s Hq).
      apply process_returns.
    + unfold run.
      rewrite (post_sensor_data_process str_of_float e settings data s Hq).
      apply process_closes_session.
Qed.

End TransportEffects.

(** * Examples *)

Lemma at_time_no_fault t : no_fault (at_time t).
Proof. intros site. reflexivity. Defined.


(** C1 at the default thresholds: 35 degrees is above the bound of 30; 20
    degrees, and the bounds 10 and 30 themselves, raise nothing; a sensor
    type without thresholds raises nothing. *)
Lemma alert_evaluator_strict_thresholds_witness :
  thresholds default_settings "temperature" = Some (10, 30)%float
  /\ (exists c,
        alert_candidate example_str_of_float default_settings (den 35 0)
        = Some c)
  /\ states_in_order
       "High temperature alert: 35.0°C is above threshold of 30.0°C"
       "High" "35.0" "30.0"
  /\ alert_candidate example_str_of_float default_settings (den 20 0) = None
  /\ alert_candidate example_str_of_float default_settings (den 10 0) = None
  /\ alert_candidate example_str_of_float default_settings (den 30 0) = None
  /\ thresholds default_settings "pressure" = None
  /\ alert_candidate example_str_of_float default_settings pressure_reading
     = None.
Proof.
  pose proof (alert_evaluator_strict_thresholds example_str_of_float
                default_settings) as H.
  destruct (H (den 35 0)) as (H35 & _).
  destruct (H35 10%float 30%float eq_refl) as (Hiff & _ & _ & Hmsg).
  destruct (H (den 20 0)) as (H20 & _).
  destruct (H20 10%float 30%float eq_refl) as (_ & Hmid & _).
  destruct (H (den 10 0)) as (H10 & _).
  destruct (H10 10%float 30%float eq_refl) as (_ & _ & Hlo & _).
  destruct (H (den 30 0)) as (H30 & _).
  destruct (H30 10%float 30%float eq_refl) as (_ & _ & Hhi & _).
  destruct (H pressure_reading) as (_ & Hnone & _).
  split; [reflexivity|].
  split; [apply (proj2 Hiff); right; reflexivity|].
  split.
  { destruct (Hmsg 30%float _ eq_refl) as [(Hc & _)|(_ & _ & _ & Hs)];
      [vm_compute in Hc; discriminate Hc|exact Hs]. }
  split; [apply Hmid; reflexivity|].
  split; [apply Hlo; [reflexivity|left; reflexivity]|].
  split; [apply Hhi; [reflexivity|right; reflexivity]|].
  split; [reflexivity|].
  exact (proj1 (Hnone eq_refl)).
Defined.


(** C3 on the empty store: the commit of the reading raises, and then the
    query of the alert stage raises after the reading was committed. *)
Lemma append_failure_aborts_alert_failure_keeps_reading_witness :
  registry_ok reading_commit_raises
  /\ process_sensor_data example_str_of_float reading_commit_raises
       default_settings (den 35 0) empty_state
     = (State (Database [den_sensor] [] []) []
          ["Error storing sensor data: database is locked"],
        inr tt)
  /\ registry_ok recent_alert_query_raises
  /\ sensor_readings
       (store (run (process_sensor_data example_str_of_float
                      recent_alert_query_raises default_settings (den 35 0))
                 empty_state))
     = [new_reading recent_alert_query_raises (den 35 0)]
  /\ outcome (process_sensor_data example_str_of_float
                recent_alert_query_raises default_settings (den 35 0))
       empty_state
     = inr tt
  /\ stdout (run (process_sensor_data example_str_of_float
                    recent_alert_query_raises default_settings (den 35 0))
               empty_state)
     = ["Error checking alert conditions: database is locked"].
Proof.
  assert (H1 : registry_ok reading_commit_raises) by (repeat split).
  assert (H2 : registry_ok recent_alert_query_raises) by (repeat split).
  split; [exact H1|].
  split.
  { exact (proj1 (append_failure_aborts_alert_failure_keeps_reading
                    example_str_of_float reading_commit_raises
                    default_settings (den 35 0) empty_state H1)
             "database is locked" eq_refl). }
  split; [exact H2|].
  exact (proj2 (append_failure_aborts_alert_failure_keeps_reading
                  example_str_of_float recent_alert_query_raises
                  default_settings (den 35 0) empty_state H2)
           eq_refl "database is locked" eq_refl).
Defined.

(** C3 refuted: the commit of a reading raises, and what the call gives
    back is a normal return, the error being a printed line only. *)
Lemma append_error_is_only_printed :
  fault reading_commit_raises CommitReading = Some "database is locked"
  /\ process_sensor_data example_str_of_float reading_commit_raises
       default_settings (den 20 0) empty_state
     = (State (Database [den_sensor] [] []) []
          ["Error storing sensor data: database is locked"],
        inr tt).
Proof. split; reflexivity. Qed.

(** C4 refuted: the commit of the reading raises "database is locked", and
    the caller of [process_sensor_data] gets a normal return. *)
Lemma storage_error_reaches_no_caller :
  fault reading_commit_raises CommitReading = Some "database is locked"
  /\ outcome (process_sensor_data example_str_of_float reading_commit_raises
                default_settings (den 35 0))
       empty_state
     = inr tt
  /\ outcome (process_sensor_data example_str_of_float reading_commit_raises
                default_settings (den 35 0))
       empty_state
     <> inl "database is locked".
Proof. repeat split. discriminate. Qed.

(** C4 as amended, on the empty store: the error is printed, the call
    returns, and the next reading is stored. *)
Lemma storage_error_is_printed_and_call_returns_witness :
  outcome (process_sensor_data example_str_of_float reading_commit_raises
             default_settings (den 35 0))
    empty_state
  = inr tt
  /\ stdout (run (process_sensor_data example_str_of_float
                    reading_commit_raises default_settings (den 35 0))
               empty_state)
     = ["Error storing sensor data: database is locked"]
  /\ sensor_readings
       (store (run (process_sensor_data example_str_of_float (at_time 1)
                      default_settings (den 20 1))
                 (run (process_sensor_data example_str_of_float
                         reading_commit_raises default_settings (den 35 0))
                    empty_state)))
     = [new_reading (at_time 1) (den 20 1)].
Proof.
  destruct (storage_error_is_printed_and_call_returns example_str_of_float
              reading_commit_raises default_settings (den 35 0) empty_state
              "database is locked")
    as (Hret & Hout & _ & _ & _ & Hnext).
  - repeat split.
  - reflexivity.
  - split; [exact Hret|]. split; [exact Hout|].
    exact (Hnext (at_time 1) (den 20 1) (at_time_no_fault 1)).
Defined.

(** C5 refuted: a JSON object without "value" on a three-part topic is
    ingested as the value 0, which here raises a low-temperature alert; and
    a two-part topic with a valid payload is dropped without a line
    printed. *)
Lemma message_without_value_is_ingested :
  assoc "value" unit_only = None
  /\ sensor_readings
       (store (run (on_message example_str_of_float example_float_of_str
                      (at_time 0) default_settings
                      (den_message (inr (PDict unit_only))))
                 empty_state))
     = [SensorReading.Build "temperature_den" 0 0 (PStr "°C")]
  /\ alerts
       (store (run (on_message example_str_of_float example_float_of_str
                      (at_time 0) default_settings
                      (den_message (inr (PDict unit_only))))
                 empty_state))
     = [Alert.Build "temperature_den" 0 0 10
          "Low temperature alert: 0.0°C is below threshold of 10.0°C" 1]
  /\ split "/" "sensors/temperature" = ["sensors"; "temperature"]
  /\ stdout
       (run (on_message example_str_of_float example_float_of_str
               (at_time 0) default_settings
               (MQTTMessage.Build "sensors/temperature"
                  (inr (PDict [("value", PFloat 35)]))))
          empty_state)
     = [].
Proof. repeat split. Qed.

(** C5 as amended, on the empty store. *)
Lemma on_message_drops_or_defaults_witness :
  on_message example_str_of_float example_float_of_str (at_time 0)
    default_settings (den_message malformed_json) empty_state
  = (State empty_database []
       ["Error processing MQTT message: Expecting value: line 1 column 1 (char 0)"],
     inr tt)
  /\ on_message example_str_of_float example_float_of_str (at_time 0)
       default_settings
       (MQTTMessage.Build "sensors/temperature"
          (inr (PDict [("value", PFloat 35)])))
       empty_state
     = (empty_state, inr tt)
  /\ on_message example_str_of_float example_float_of_str (at_time 0)
       default_settings (den_message (inr (PDict unit_only))) empty_state
     = process_sensor_data example_str_of_float (at_time 0) default_settings
         (mqtt_sensor_data (at_time 0) "temperature" "den" 0 (PStr "°C"))
         empty_state
  /\ deliver_all example_str_of_float example_float_of_str default_settings
       [(at_time 0, den_message malformed_json);
        (at_time 1, den_message (inr (PDict [("value", PFloat 20)])))]
       empty_state
     = deliver_all example_str_of_float example_float_of_str default_settings
         [(at_time 1, den_message (inr (PDict [("value", PFloat 20)])))]
         (mqtt_error_logged "Expecting value: line 1 column 1 (char 0)"
            empty_state).
Proof.
  split; [|split; [|split]].
  - destruct (on_message_drops_or_defaults example_str_of_float
                example_float_of_str (at_time 0) default_settings
                (den_message malformed_json) empty_state)
      as (_ & H & _).
    exact (H _ eq_refl).
  - destruct (on_message_drops_or_defaults example_str_of_float
                example_float_of_str (at_time 0) default_settings
                (MQTTMessage.Build "sensors/temperature"
                   (inr (PDict [("value", PFloat 35)]))) empty_state)
      as (_ & _ & _ & H & _).
    apply (H _ eq_refl). cbn. lia.
  - destruct (on_message_drops_or_defaults example_str_of_float
                example_float_of_str (at_time 0) default_settings
                (den_message (inr (PDict unit_only))) empty_state)
      as (_ & _ & _ & _ & H & _).
    apply (H unit_only eq_refl eq_refl). cbn. lia.
  - destruct (on_message_drops_or_defaults example_str_of_float
                example_float_of_str (at_time 0) default_settings
                (den_message malformed_json) empty_state)
      as (_ & _ & _ & _ & _ & H).
    exact (H _ _ eq_refl).
Defined.



(** C7 refuted: on the empty store the two transports carry the same
    canonical reading and register different sensors. *)
Lemma transports_register_different_metadata :
  mqtt_decode example_float_of_str (at_time 0) den_35_message
  = inr (Some (mqtt_sensor_data (at_time 0) "temperature" "den" 35 (PStr "°C")))
  /\ same_canonical
       (http_sensor_data (at_time 0) den_request empty_database)
       (mqtt_sensor_data (at_time 0) "temperature" "den" 35 (PStr "°C"))
  /\ sensors
       (store (run (post_sensor_data example_str_of_float (at_time 0)
                      default_settings den_request)
                 empty_state))
     = [den_sensor]
  /\ sensors
       (store (run (on_message example_str_of_float example_float_of_str
                      (at_time 0) default_settings den_35_message)
                 empty_state))
     = [den_mqtt_sensor]
  /\ [den_sensor] <> [den_mqtt_sensor].
Proof. repeat split. discriminate. Qed.

(** C7 as amended: with the sensor registered under the type the topic
    names, the two transports end in the same state. *)
Lemma transports_agree_up_to_fallback_metadata_witness :
  run (post_sensor_data example_str_of_float (at_time 0) default_settings
         den_request)
    den_registered
  = run (on_message example_str_of_float example_float_of_str (at_time 0)
           default_settings den_35_message)
      den_registered.
Proof.
  destruct (transports_agree_up_to_fallback_metadata example_str_of_float
              example_float_of_str (at_time 0) default_settings den_request
              den_35_message
              (mqtt_sensor_data (at_time 0) "temperature" "den" 35 (PStr "°C"))
              den_registered)
    as (_ & _ & _ & _ & _ & H & _).
  - reflexivity.
  - reflexivity.
  - repeat split.
  - apply H; [reflexivity|discriminate].
Defined.

Lemma registry_unique_empty : registry_unique empty_database.
Proof. intros sensor_id. cbn. lia. Defined.

(** C8: a second reading of a registered identifier, with other metadata,
    leaves the one row as it was registered. *)
Lemma sensor_resolution_idempotent_witness :
  registry_unique
    (store (ingest_all example_str_of_float default_settings
              [(at_time 0, den 35 0); (at_time 1, den_renamed)] empty_state))
  /\ registered "temperature_den"
       (store (ingest_all example_str_of_float default_settings
                 [(at_time 1, den_renamed)] den_registered))
     = Some den_mqtt_sensor
  /\ sensors
       (store (run (process_sensor_data example_str_of_float (at_time 1)
                      default_settings den_renamed)
                 den_registered))
     = [den_mqtt_sensor]
  /\ List.length
       (rows_of "temperature_den"
          (store (ingest_all example_str_of_float default_settings
                    [(at_time 0, den 35 0); (at_time 1, den_renamed)]
                    empty_state)))
     = 1%nat.
Proof.
  destruct (sensor_resolution_idempotent example_str_of_float default_settings)
    as (Hunique & Hkeeps & Hsame & Hone).
  split; [apply Hunique; exact registry_unique_empty|].
  split; [apply Hkeeps; reflexivity|].
  split; [apply (Hsame (at_time 1) den_renamed den_registered den_mqtt_sensor);
          reflexivity|].
  exact (Hone [] (at_time 0) (den 35 0) [(at_time 1, den_renamed)] empty_state
           registry_unique_empty
           (conj eq_refl (conj eq_refl eq_refl))).
Defined.

(** C9: five readings appended at times 1 to 5, then a query with
    [limit=2]: the readings of times 5 and 4, in this order. *)
Lemma get_sensor_readings_latest_first_witness :
  get_sensor_readings sort_desc sqlite_limit (store five_appends)
    "temperature_den" 2 None None
  = [new_reading (at_time 5) (den 20 5); new_reading (at_time 4) (den 20 4)]
  /\ List.length
       (get_sensor_readings sort_desc sqlite_limit (store five_appends)
          "temperature_den" 2 None None)
     = Nat.min (Z.to_nat 2)
         (List.length
            (filter (selected "temperature_den" None None)
               (sensor_readings (store five_appends))))
  /\ StronglySorted later_or_equal
       (get_sensor_readings sort_desc sqlite_limit (store five_appends)
          "temperature_den" 2 None None).
Proof.
  destruct (get_sensor_readings_latest_first sort_desc sqlite_limit
              sort_desc_permutation sort_desc_sorted sqlite_limit_count
              (store five_appends) "temperature_den" 2 None None)
    as (Hlen & Hsorted & _).
  - lia.
  - split; [reflexivity|]. split; [exact Hlen|exact Hsorted].
Defined.

(** C10: a request and a bus message handled at time 42 are stored with the
    timestamp 42, the message's own "timestamp" field notwithstanding. *)
Lemma stored_timestamp_is_transport_clock_witness :
  (exists r,
     sensor_readings
       (store (run (post_sensor_data example_str_of_float (at_time 42)
                      default_settings den_request)
                 empty_state))
     = sensor_readings (store empty_state) ++ [r]
     /\ SensorReading.timestamp r = 42)
  /\ (exists r,
        sensor_readings
          (store (run (on_message example_str_of_float example_float_of_str
                         (at_time 42) default_settings stamped_message)
                    empty_state))
        = sensor_readings (store empty_state) ++ [r]
        /\ SensorReading.timestamp r = 42).
Proof.
  destruct (stored_timestamp_is_transport_clock example_str_of_float
              example_float_of_str (at_time 42) default_settings)
    as (_ & _ & _ & _ & H).
  destruct (H (at_time_no_fault 42)) as [Hhttp Hmqtt].
  split; [exact (Hhttp den_request empty_state)|].
  exact (Hmqtt stamped_message
           (mqtt_sensor_data (at_time 42) "temperature" "den" 35 (PStr ""))
           empty_state eq_refl).
Defined.

(** X1 on the empty store: a reading of 20 degrees, nothing raises. *)
Lemma each_call_stores_or_reports_witness :
  outcome (process_sensor_data example_str_of_float (at_time 0)
             default_settings (den 20 0))
    empty_state
  = inr tt
  /\ session (run (process_sensor_data example_str_of_float (at_time 0)
                     default_settings (den 20 0))
                empty_state)
     = []
  /\ stdout (run (process_sensor_data example_str_of_float (at_time 0)
                    default_settings (den 20 0))
               empty_state)
     = [].
Proof.
  pose proof (each_call_stores_or_reports example_str_of_float (at_time 0)
                default_settings (den 20 0) empty_state) as H.
  cbn zeta in H. destruct H as (Hret & Hclosed & _ & Hquiet).
  split; [exact Hret|]. split; [exact Hclosed|].
  exact (Hquiet (at_time_no_fault 0)).
Defined.

(** X3 on the empty store, after a reading that raises an alert. *)
Lemma foreign_keys_hold_witness :
  names_registered
    (store (ingest_all example_str_of_float default_settings
              [(at_time 0, den 35 0)] empty_state)).
Proof.
  apply (foreign_keys_hold example_str_of_float default_settings
           [(at_time 0, den 35 0)] empty_state).
  split; constructor.
Defined.

(** X4 on the empty store, after a reading that raises an alert. *)
Lemma alerts_stay_justified_witness :
  alerts_justified default_settings
    (store (ingest_all example_str_of_float default_settings
              [(at_time 0, den 35 0)] empty_state))
  /\ Forall (fun a => PrimFloat.is_nan (Alert.value a) = false)
       (alerts (store (ingest_all example_str_of_float default_settings
                         [(at_time 0, den 35 0)] empty_state))).
Proof.
  apply (alerts_stay_justified example_str_of_float default_settings
           [(at_time 0, den 35 0)] empty_state).
  constructor.
Defined.

(** X5 on the empty store: two readings, at times 1 and 2. *)
Lemma fault_free_run_appends_its_readings_witness :
  sensor_readings
    (store (ingest_all example_str_of_float default_settings
              [(at_time 1, den 20 1); (at_time 2, den 35 2)] empty_state))
  = [new_reading (at_time 1) (den 20 1); new_reading (at_time 2) (den 35 2)].
Proof.
  apply (fault_free_run_appends_its_readings example_str_of_float
           default_settings
           [(at_time 1, den 20 1); (at_time 2, den 35 2)] empty_state).
  repeat constructor.
Defined.

(** X6 on the empty store: two sensors at 35 degrees, one microsecond
    apart, both raise their alert. *)
Lemma cooldown_is_per_sensor_witness :
  alerts
    (store (ingest_all example_str_of_float default_settings
              [(at_time 0, den 35 0); (at_time 1, attic 35 1)] empty_state))
  = [den_high_alert 0 1;
     Alert.Build "temperature_attic" 1 35 30
       "High temperature alert: 35.0°C is above threshold of 30.0°C" 1].
Proof.
  apply (cooldown_is_per_sensor example_str_of_float default_settings
           empty_state (at_time 0) (den 35 0) (at_time 1) (attic 35 1)
           30%float
           "High temperature alert: 35.0°C is above threshold of 30.0°C"
           30%float
           "High temperature alert: 35.0°C is above threshold of 30.0°C").
  - discriminate.
  - reflexivity.
  - reflexivity.
  - exact (at_time_no_fault 0).
  - exact (at_time_no_fault 1).
  - reflexivity.
  - reflexivity.
Defined.

(** X7: alerts at 0, two and four hours, read at six hours with
    [hours=5] and [limit=1]: the alert of four hours. *)
Lemma get_alerts_latest_first_witness :
  get_alerts sort_alerts_desc sqlite_limit_alerts six_hours
    (store three_alerts) 1 5
  = inr [den_high_alert four_hours 1]
  /\ List.length [den_high_alert four_hours 1]
     = Nat.min (Z.to_nat 1)
         (List.length
            (filter (fun a => six_hours - 5 * 3600 * 1000000
                              <=? Alert.timestamp a)
               (alerts (store three_alerts))))
  /\ StronglySorted alert_later_or_equal [den_high_alert four_hours 1].
Proof.
  destruct (get_alerts_latest_first sort_alerts_desc sqlite_limit_alerts
              sort_alerts_desc_permutation sort_alerts_desc_sorted
              sqlite_limit_alerts_count six_hours (store three_alerts) 1 5)
    as (H & _).
  - lia.
  - destruct (H [den_high_alert four_hours 1] eq_refl)
      as (Hlen & Hsorted & _).
    split; [reflexivity|]. split; [exact Hlen|exact Hsorted].
Defined.

(** X8: a window of 24 * 10^9 hours makes the endpoint raise; with
    [hours=0] at six hours nothing is selected. *)
Lemma get_alerts_edges_witness :
  (exists ex,
     get_alerts sort_alerts_desc sqlite_limit_alerts six_hours
       (store three_alerts) 50 (24 * 1000000000)
     = inl ex)
  /\ get_alerts sort_alerts_desc sqlite_limit_alerts six_hours
       (store three_alerts) 50 0
     = inr [].
Proof.
  split.
  - destruct (get_alerts_edges sort_alerts_desc sqlite_limit_alerts
                sort_alerts_desc_permutation sqlite_limit_alerts_count
                six_hours (store three_alerts) 50 (24 * 1000000000))
      as (H & _).
    apply H. cbn. lia.
  - destruct (get_alerts_edges sort_alerts_desc sqlite_limit_alerts
                sort_alerts_desc_permutation sqlite_limit_alerts_count
                six_hours (store three_alerts) 50 0)
      as (_ & _ & H & _).
    assert (Hbefore : Forall (fun a => Alert.timestamp a < six_hours)
                        (alerts (store three_alerts)))
      by (repeat constructor).
    destruct (get_alerts sort_alerts_desc sqlite_limit_alerts six_hours
                (store three_alerts) 50 0) as [ex|result] eqn:E.
    + discriminate E.
    + rewrite (H ltac:(lia) ltac:(lia) Hbefore result eq_refl). reflexivity.
Defined.

(** X9: after five readings at times 1 to 5, a sixth at time 6 is the
    first row read back. *)
Lemma latest_reading_is_read_first_witness :
  exists rest,
    get_sensor_readings sort_desc sqlite_limit
      (store (run (process_sensor_data example_str_of_float (at_time 6)
                     default_settings (den 20 6))
                five_appends))
      "temperature_den" 1 None None
    = new_reading (at_time 6) (den 20 6) :: rest.
Proof.
  apply (latest_reading_is_read_first example_str_of_float sort_desc
           sqlite_limit sort_desc_permutation sort_desc_sorted
           sqlite_limit_count (at_time 6) default_settings (den 20 6)
           five_appends 1 None None).
  - exact (at_time_no_fault 6).
  - lia.
  - reflexivity.
  - repeat constructor; intros _; cbn; lia.
Defined.


(** X11 on the five readings at times 1 to 5: the window from 4 to 2 and
    the limit 0 select nothing; the window from 1 to 5 holds the reading of
    time 5. *)
Lemma get_sensor_readings_edges_witness :
  get_sensor_readings sort_desc sqlite_limit (store five_appends)
    "temperature_den" 2 (Some 4) (Some 2)
  = []
  /\ get_sensor_readings sort_desc sqlite_limit (store five_appends)
       "temperature_den" 0 None None
     = []
  /\ selected "temperature_den" (Some 1) (Some 5)
       (new_reading (at_time 5) (den 20 5))
     = true.
Proof.
  split; [|split].
  - destruct (get_sensor_readings_edges sort_desc sqlite_limit
                sort_desc_permutation sqlite_limit_count (store five_appends)
                "temperature_den" 2 (Some 4) (Some 2))
      as (H & _).
    apply (H 4 2); [reflexivity|reflexivity|lia|lia].
  - destruct (get_sensor_readings_edges sort_desc sqlite_limit
                sort_desc_permutation sqlite_limit_count (store five_appends)
                "temperature_den" 0 None None)
      as (_ & H & _).
    apply H. reflexivity.
  - destruct (get_sensor_readings_edges sort_desc sqlite_limit
                sort_desc_permutation sqlite_limit_count (store five_appends)
                "temperature_den" 2 (Some 1) (Some 5))
      as (_ & _ & H).
    apply (H _ 1 5); [reflexivity|reflexivity|reflexivity| |lia].
    right. reflexivity.
Defined.

(** X12: [temperature_den] decodes to the type [temperature];
    [air_quality_den] decodes to [air], not to [air_quality]. *)
Lemma bus_identifier_decodes_witness :
  SD.sensor_type (http_sensor_data (at_time 0) den_request empty_database)
  = "temperature"
  /\ SD.sensor_type
       (http_sensor_data (at_time 0)
          (SensorData.Build "air_quality_den" 35 None) empty_database)
     <> "air_quality".
Proof.
  split.
  - destruct (bus_identifier_decodes (at_time 0) "temperature" "den" 35
                (PStr "°C") den_request empty_database eq_refl eq_refl)
      as (H & _).
    apply H. reflexivity.
  - destruct (bus_identifier_decodes (at_time 0) "air_quality" "den" 35
                (PStr "") (SensorData.Build "air_quality_den" 35 None)
                empty_database eq_refl eq_refl)
      as (H & _).
    intros Heq. apply H in Heq. discriminate Heq.
Defined.

(** X13: the broker refuses the connection; the application starts, with
    three lines printed and no MQTT client. *)
Lemma startup_survives_broker_failure_witness :
  startup_event broker_unreachable empty_state
  = (State empty_database []
       ["Failed to connect to MQTT broker: [Errno 111] Connection refused";
        "Warning: Could not start MQTT client: [Errno 111] Connection refused";
        "The application will continue without MQTT support."],
     inr false).
Proof.
  exact (proj1 (startup_survives_broker_failure broker_unreachable
                  empty_state) eq_refl).
Defined.

(** X15 on the empty store: the bus message and the request of 35
    degrees. *)
Lemma transports_keep_the_invariants_witness :
  (names_registered
     (store (run (on_message example_str_of_float example_float_of_str
                    (at_time 0) default_settings den_35_message)
               empty_state))
   /\ alerts_justified default_settings
        (store (run (on_message example_str_of_float example_float_of_str
                       (at_time 0) default_settings den_35_message)
                  empty_state)))
  /\ names_registered
       (store (run (post_sensor_data example_str_of_float (at_time 0)
                      default_settings den_request)
                 empty_state))
  /\ alerts_justified default_settings
       (store (run (post_sensor_data example_str_of_float (at_time 0)
                      default_settings den_request)
                 empty_state)).
Proof.
  destruct (transports_keep_the_invariants example_str_of_float
              example_float_of_str (at_time 0) default_settings empty_state)
    as (Hbus & Hrequest).
  - split; constructor.
  - constructor.
  - split; [exact (Hbus den_35_message)|exact (Hrequest den_request)].
Defined.

(** X16 on the empty store: the endpoint's query raises, the request
    fails and the store is as before. *)
Lemma request_fails_only_on_endpoint_query_witness :
  post_sensor_data example_str_of_float endpoint_query_raises
    default_settings den_request empty_state
  = (empty_state, inl "database is locked")
  /\ outcome (post_sensor_data example_str_of_float (at_time 0)
                default_settings den_request)
       empty_state
     = inr tt.
Proof.
  split.
  - destruct (request_fails_only_on_endpoint_query example_str_of_float
                endpoint_query_raises default_settings den_request
                empty_state)
      as (H & _).
    exact (proj2 (H "database is locked" eq_refl)).
  - destruct (request_fails_only_on_endpoint_query example_str_of_float
                (at_time 0) default_settings den_request empty_state)
      as (_ & H).
    exact (proj1 (proj2 (proj2 (H eq_refl)))).
Defined.
